(** * Safe conversion utilities of the anti-patterns notebook

    A shallow embedding of the three "best practice" utilities of
    [AntiPatterns.ipynb]: [divide] (cell at lines 110-154), [read_json_file]
    (lines 234-285) and [parse_color] (lines 361-434), together with the part
    of the Python semantics they rely on: a universe of values, the exception
    class hierarchy, [try]/[except]/[else]/[finally], the [with] statement,
    and a world holding the console, the log, the files and the open handles.

    Floats are IEEE binary64 numbers, taken from the standard library's
    [SpecFloat]; integers are unbounded ([Z]); a [str] is a sequence of code
    points below 256.  The files are a tree of directories and regular files
    on a POSIX system, without links, and the working directory is its
    root; the interpreter is CPython 3.11, the kernel of the notebook. *)

From Stdlib Require Import ZArith String Ascii List Bool Lia.
From Stdlib Require Import Floats.SpecFloat.
From stdpp Require Import base option gmap strings list.

Set Warnings "-register-all".

Local Open Scope Z_scope.
Local Open Scope string_scope.

(** ** Values *)

Module Py.

(** The objects the utilities are applied to.  The numeric tower is
    [bool], [int] and [float]. *)
Inductive value :=
  | VNone
  | VBool (b : bool)
  | VInt (n : Z)
  | VFloat (f : spec_float)
  | VStr (s : string)
  | VTuple (items : list value)
  | VList (items : list value)
  | VDict (entries : list (string * value)).

Definition prec : Z := 53.
Definition emax : Z := 1024.

(** [isinstance(v, (bool, int, float))] *)
Definition is_number (v : value) : bool :=
  match v with
  | VBool _ | VInt _ | VFloat _ => true
  | _ => false
  end.

(** [isinstance(v, dict)] *)
Definition is_dict (v : value) : bool :=
  match v with
  | VDict _ => true
  | _ => false
  end.

(** [v is None] *)
Definition is_None (v : value) : bool :=
  match v with
  | VNone => true
  | _ => false
  end.

(** ** Exceptions *)

Inductive exn_class :=
  | BaseException
  | KeyboardInterrupt
  | Exception
  | ArithmeticError
  | ZeroDivisionError
  | OverflowError
  | TypeError
  | ValueError
  | JSONDecodeError
  | UnicodeError
  | UnicodeDecodeError
  | OSError
  | FileNotFoundError
  | PermissionError
  | IsADirectoryError
  | NotADirectoryError
  | RuntimeError
  | RecursionError
  | MemoryError.

#[global] Instance exn_class_eq_dec : EqDecision exn_class.
Proof. solve_decision. Defined.

(** The direct base class, as in the built-in hierarchy ([JSONDecodeError]
    derives from [ValueError] in [json.decoder]). *)
Definition base_class (c : exn_class) : option exn_class :=
  match c with
  | BaseException => None
  | KeyboardInterrupt => Some BaseException
  | Exception => Some BaseException
  | ArithmeticError => Some Exception
  | ZeroDivisionError => Some ArithmeticError
  | OverflowError => Some ArithmeticError
  | TypeError => Some Exception
  | ValueError => Some Exception
  | JSONDecodeError => Some ValueError
  | UnicodeError => Some ValueError
  | UnicodeDecodeError => Some UnicodeError
  | OSError => Some Exception
  | FileNotFoundError => Some OSError
  | PermissionError => Some OSError
  | IsADirectoryError => Some OSError
  | NotADirectoryError => Some OSError
  | RuntimeError => Some Exception
  | RecursionError => Some RuntimeError
  | MemoryError => Some Exception
  end.

Fixpoint issubclass_upto (depth : nat) (c d : exn_class) : bool :=
  if bool_decide (c = d) then true
  else match depth with
       | O => false
       | S depth' =>
           match base_class c with
           | Some p => issubclass_upto depth' p d
           | None => false
           end
       end.

(** [issubclass(c, d)]; no chain of base classes is longer than four. *)
Definition issubclass (c d : exn_class) : bool := issubclass_upto 4 c d.

Record exn := mk_exn { exn_cls : exn_class; exn_text : string }.

Inductive result (A : Type) :=
  | Ok (a : A)
  | Raise (e : exn).
Arguments Ok {A} a.
Arguments Raise {A} e.

Definition is_Raise {A} (r : result A) : bool :=
  match r with
  | Raise _ => true
  | Ok _ => false
  end.

(** ** Paths *)

(** A path as [pathlib] keeps it: the length of its root ([/] or [//], or
    none) and its components. *)
Record path := mk_path { anchor : nat; parts : list string }.

(** The pieces of [s] between slashes, after the piece [piece] begun. *)
Fixpoint split_slash (piece : string) (s : string) : list string :=
  match s with
  | EmptyString => [piece]
  | String c rest =>
      if Ascii.eqb c "/" then piece :: split_slash EmptyString rest
      else split_slash (piece +:+ String c EmptyString) rest
  end.

Fixpoint leading_slashes (s : string) : nat :=
  match s with
  | String c rest => if Ascii.eqb c "/" then S (leading_slashes rest) else O
  | EmptyString => O
  end.

(** Empty pieces and [.] are dropped; [..] stays. *)
Definition is_component (piece : string) : bool :=
  negb (String.eqb piece "" || String.eqb piece ".").

(** [PurePosixPath(s)]: exactly two leading slashes make the root [//],
    one or more than two the root [/]. *)
Definition path_of_string (s : string) : path :=
  let slashes := leading_slashes s in
  mk_path (if (slashes =? 0)%nat then 0 else if (slashes =? 2)%nat then 2 else 1)%nat
          (List.filter is_component (split_slash EmptyString s)).

(** [Path(p)]: a string gives a path; the other objects of the universe are
    not path-like. *)
Definition Path (p : value) : result path :=
  match p with
  | VStr s => Ok (path_of_string s)
  | _ => Raise (mk_exn TypeError "expected str, bytes or os.PathLike object")
  end.

Fixpoint join_parts (components : list string) : string :=
  match components with
  | [] => EmptyString
  | [last] => last
  | first :: rest => first +:+ "/" +:+ join_parts rest
  end.

Definition root_text (anchor : nat) : string :=
  match anchor with
  | O => EmptyString
  | S (S O) => "//"
  | _ => "/"
  end.

(** [str(p)], the text a path is shown as and opened by: the root followed
    by the components joined by [/], or [.] when both are empty. *)
Definition path_text (p : path) : string :=
  match parts p with
  | [] => if (anchor p =? 0)%nat then "." else root_text (anchor p)
  | _ => root_text (anchor p) +:+ join_parts (parts p)
  end.

(** ** The world: console, log, files, open handles *)

(** The argument of a format field; the text it renders to is not computed. *)
Inductive fmt_arg :=
  | ArgValue (v : value)
  | ArgPath (p : path)
  | ArgExnStr (e : exn)
  | ArgExnArgs (e : exn).

(** A line of output: the format string of the source and the objects
    substituted in its fields. *)
Record message := Msg { template : string; fields : list fmt_arg }.

(** A directory with its permissions for this process, to list it and to
    search it, and its entries; a regular file with its permission to read
    it and its bytes. *)
Inductive node :=
  | Directory (readable searchable : bool) (entries : list (string * node))
  | Regular (readable : bool) (content : string).

(** The file tree: the entries of the root directory, which the process
    may list and search. *)
Record tree := Tree { root_entries : list (string * node) }.

Record world := World {
  files : tree;
  handles : gset nat;
  console : list message;
  errlog : list message
}.

(** A computation reads and updates the world and returns or raises; the
    world changes made before an exception is raised stay. *)
Definition M (A : Type) : Type := world -> result A * world.

Definition ret {A} (a : A) : M A := fun w => (Ok a, w).

Definition bind {A B} (c : M A) (k : A -> M B) : M B :=
  fun w =>
    match c w with
    | (Ok a, w') => k a w'
    | (Raise e, w') => (Raise e, w')
    end.

(** [raise e] *)
Definition raise {A} (e : exn) : M A := fun w => (Raise e, w).

Definition lift {A} (r : result A) : M A := fun w => (r, w).

Declare Scope py_scope.
Delimit Scope py_scope with py.
Notation "x <- c ;; k" := (bind c (fun x => k))
  (at level 100, c at next level, right associativity) : py_scope.
Notation "c ;; k" := (bind c (fun _ => k))
  (at level 100, right associativity) : py_scope.
Local Open Scope py_scope.

(** [print(m)] *)
Definition print (m : message) : M unit :=
  fun w => (Ok tt, World (files w) (handles w) (console w ++ [m]) (errlog w)).

(** [logging.error(m)] *)
Definition logging_error (m : message) : M unit :=
  fun w => (Ok tt, World (files w) (handles w) (console w) (errlog w ++ [m])).

(** ** [try] statements *)

(** An [except C: ...] clause; the clause body sees the exception. *)
Definition clause (A : Type) : Type := exn_class * (exn -> M A).

(** The clauses are tried in source order; the first whose class the
    exception is an instance of is taken. *)
Definition select_clause {A} (cs : list (clause A)) (e : exn) : option (clause A) :=
  List.find (fun c => issubclass (exn_cls e) (fst c)) cs.

(** [try: body  except ...: ...  else: orelse].  An exception no clause
    matches propagates; the [else] suite runs after a body that did not
    raise, outside the protection of the clauses. *)
Definition try_except {A B} (body : M A) (cs : list (clause B)) (orelse : A -> M B) : M B :=
  fun w =>
    match body w with
    | (Ok a, w') => orelse a w'
    | (Raise e, w') =>
        match select_clause cs e with
        | Some c => snd c e w'
        | None => (Raise e, w')
        end
    end.

(** [... finally: suite] for a suite that only rebinds the local variable
    the protected statement computes: the suite runs on every path, and an
    exception in flight goes on after it. *)
Definition finally_rebind {A} (body : M A) (suite : A -> A) : M A :=
  fun w =>
    match body w with
    | (Ok a, w') => (Ok (suite a), w')
    | (Raise e, w') => (Raise e, w')
    end.

(** ** Rendering an object as text *)

(** The state of the interpreter a rendering depends on:
    [sys.get_int_max_str_digits()], 4300 unless it was changed and 0 for no
    limit, and the number of nested calls that can still be made where the
    rendering starts. *)
Record interpreter := Interpreter {
  int_max_str_digits : Z;
  recursion_room : nat
}.

(** [str(n)] is refused for an [int] of more digits than the limit. *)
Definition too_many_digits (py : interpreter) (n : Z) : bool :=
  (0 <? int_max_str_digits py)%Z && (10 ^ int_max_str_digits py <=? Z.abs n)%Z.

Definition digits_exceeded : exn :=
  mk_exn ValueError "Exceeds the limit for integer string conversion".
Definition recursion_exceeded : exn :=
  mk_exn RecursionError "maximum recursion depth exceeded while getting the repr of an object".

(** The first exception met when the objects are rendered from left to
    right. *)
Fixpoint first_failure (render : value -> result unit) (items : list value) : result unit :=
  match items with
  | [] => Ok tt
  | item :: rest =>
      match render item with
      | Ok _ => first_failure render rest
      | Raise e => Raise e
      end
  end.

(** Rendering an object with [room] nested calls left: each object takes
    one call, and a tuple, a list or a dictionary renders what it holds one
    call deeper.  The text itself is not computed, only whether it is
    reached. *)
Fixpoint render_within (py : interpreter) (room : nat) (v : value) : result unit :=
  match room with
  | O => Raise recursion_exceeded
  | S room' =>
      match v with
      | VInt n => if too_many_digits py n then Raise digits_exceeded else Ok tt
      | VTuple items | VList items => first_failure (render_within py room') items
      | VDict entries => first_failure (render_within py room') (map snd entries)
      | _ => Ok tt
      end
  end.

(** [format(v, "")], the rendering of a field [{0}] of [str.format]. *)
Definition format_field (py : interpreter) (v : value) : result unit :=
  render_within py (recursion_room py) v.

Definition is_Ok {A} (r : result A) : bool := negb (is_Raise r).

(** ** Arithmetic *)

(** An [int] as an exact binary number with exponent 0. *)
Definition exact_of_int (n : Z) : spec_float :=
  match n with
  | Z0 => S754_zero false
  | Zpos p => S754_finite false p 0
  | Zneg p => S754_finite true p 0
  end.

(** [float(n)] for an [int]: rounded to nearest, ties to even; a magnitude
    that rounds beyond the largest float raises. *)
Definition float_of_int (n : Z) : result spec_float :=
  match binary_normalize prec emax n 0 false with
  | S754_infinity _ => Raise (mk_exn OverflowError "int too large to convert to float")
  | f => Ok f
  end.

(** [x / y] on two [int]s: the correctly rounded quotient, computed from
    the exact operands; a quotient beyond the largest float raises. *)
Definition int_true_divide (x y : Z) : result spec_float :=
  if (y =? 0)%Z then Raise (mk_exn ZeroDivisionError "division by zero")
  else match SFdiv prec emax (exact_of_int x) (exact_of_int y) with
       | S754_infinity _ =>
           Raise (mk_exn OverflowError "integer division result too large for a float")
       | q => Ok q
       end.

Definition float_is_zero (f : spec_float) : bool :=
  match f with
  | S754_zero _ => true
  | _ => false
  end.

(** [x / y] on two [float]s: only a zero divisor raises; overflow gives an
    infinity and invalid operations give a NaN. *)
Definition float_true_divide (x y : spec_float) : result spec_float :=
  if float_is_zero y then Raise (mk_exn ZeroDivisionError "float division by zero")
  else Ok (SFdiv prec emax x y).

Definition int_of_bool (b : bool) : Z := if b then 1 else 0.

(** The operand of a float operation converted to a [float]; [None] for
    an object that is not a number. *)
Definition as_float (v : value) : option (result spec_float) :=
  match v with
  | VFloat f => Some (Ok f)
  | VInt n => Some (float_of_int n)
  | VBool b => Some (float_of_int (int_of_bool b))
  | _ => None
  end.

Definition as_int (v : value) : option Z :=
  match v with
  | VInt n => Some n
  | VBool b => Some (int_of_bool b)
  | _ => None
  end.

Definition unsupported_operands : exn :=
  mk_exn TypeError "unsupported operand type(s) for /".

(** [a / b].  Two integers (a [bool] is an [int]) divide exactly; when a
    [float] is involved both operands are converted, the left one first,
    before the divisor is tested; any other pair of operands has no [/]. *)
Definition truediv (a b : value) : result spec_float :=
  match as_int a, as_int b with
  | Some x, Some y => int_true_divide x y
  | _, _ =>
      match as_float a, as_float b with
      | Some ra, Some rb =>
          match ra with
          | Raise e => Raise e
          | Ok x =>
              match rb with
              | Raise e => Raise e
              | Ok y => float_true_divide x y
              end
          end
      | _, _ => Raise unsupported_operands
      end
  end.

(** [b == 0] for a number. *)
Definition is_zero (b : value) : bool :=
  match b with
  | VInt n => (n =? 0)%Z
  | VBool b => negb b
  | VFloat f => float_is_zero f
  | _ => false
  end.

(** ** Comparison with an integer *)

(** The order between a finite or infinite float and an integer, exactly;
    a NaN is unordered. *)
Definition float_compare_int (f : spec_float) (n : Z) : option comparison :=
  match f with
  | S754_nan => None
  | S754_infinity s => Some (if s then Lt else Gt)
  | S754_zero _ => Some (0 ?= n)%Z
  | S754_finite s m e =>
      let mz := if s then Zneg m else Zpos m in
      Some (if (0 <=? e)%Z then (mz * 2 ^ e ?= n)%Z else (mz ?= n * 2 ^ (- e))%Z)
  end.

Definition not_orderable (op : string) : exn :=
  mk_exn TypeError (op +:+ " not supported between these instances").

(** The order between an object and an [int]; objects that are not numbers
    do not compare with an [int]. *)
Definition compare_int (op : string) (c : value) (n : Z) : result (option comparison) :=
  match c with
  | VInt m => Ok (Some (m ?= n)%Z)
  | VBool b => Ok (Some (int_of_bool b ?= n)%Z)
  | VFloat f => Ok (float_compare_int f n)
  | _ => Raise (not_orderable op)
  end.

Definition is_cmp (want : comparison) (o : option comparison) : bool :=
  match o, want with
  | Some Lt, Lt | Some Eq, Eq | Some Gt, Gt => true
  | _, _ => false
  end.

(** [c < n] and [c > n] for an [int] [n]. *)
Definition lt_int (c : value) (n : Z) : result bool :=
  match compare_int "<" c n with
  | Ok o => Ok (is_cmp Lt o)
  | Raise e => Raise e
  end.

Definition gt_int (c : value) (n : Z) : result bool :=
  match compare_int ">" c n with
  | Ok o => Ok (is_cmp Gt o)
  | Raise e => Raise e
  end.

(** [min(n, c)]: the first argument is kept unless the second is smaller. *)
Definition min_int (n : Z) (c : value) : result value :=
  match lt_int c n with
  | Ok smaller => Ok (if smaller then c else VInt n)
  | Raise e => Raise e
  end.

(** [max(n, c)]: the first argument is kept unless the second is larger. *)
Definition max_int (n : Z) (c : value) : result value :=
  match gt_int c n with
  | Ok larger => Ok (if larger then c else VInt n)
  | Raise e => Raise e
  end.

(** ** Strings *)

Definition code (c : ascii) : N := N_of_ascii c.

(** [s.lstrip(c)] for a one-character set. *)
Fixpoint lstrip (c : ascii) (s : string) : string :=
  match s with
  | String a rest => if Ascii.eqb a c then lstrip c rest else s
  | EmptyString => s
  end.

(** The lower-case mapping of the code points below 256: the ASCII
    capitals, and the capitals U+00C0 to U+00DE without the sign U+00D7. *)
Definition lower_char (c : ascii) : ascii :=
  let n := code c in
  if ((65 <=? n) && (n <=? 90)
      || (192 <=? n) && (n <=? 222) && negb (n =? 215))%N
  then ascii_of_N (n + 32) else c.

(** [s.lower()] *)
Fixpoint lower (s : string) : string :=
  match s with
  | String a rest => String (lower_char a) (lower rest)
  | EmptyString => EmptyString
  end.

(** [s[i:j]] for [0 <= i <= j]. *)
Definition slice (i j : nat) (s : string) : string := substring i (j - i) s.

(** White space as [int] skips it: the ASCII white space, and the code
    points U+0085 and U+00A0, which are read as spaces. *)
Definition is_int_space (c : ascii) : bool :=
  let n := code c in
  ((9 <=? n) && (n <=? 13) || (n =? 32) || (n =? 133) || (n =? 160))%N.

Definition hex_digit (c : ascii) : option Z :=
  let n := code c in
  if ((48 <=? n) && (n <=? 57))%N then Some (Z.of_N n - 48)%Z
  else if ((97 <=? n) && (n <=? 102))%N then Some (Z.of_N n - 87)%Z
  else if ((65 <=? n) && (n <=? 70))%N then Some (Z.of_N n - 55)%Z
  else None.

Fixpoint skip_spaces (s : string) : string :=
  match s with
  | String a rest => if is_int_space a then skip_spaces rest else s
  | EmptyString => s
  end.

(** The digits of the literal, with single underscores between them; gives
    the number read and what follows it, and nothing when two underscores
    meet or an underscore ends the digits. *)
Fixpoint scan_digits (s : string) (after_underscore : bool) (acc : Z) : option (Z * string) :=
  match s with
  | EmptyString => if after_underscore then None else Some (acc, s)
  | String a rest =>
      if Ascii.eqb a "_" then
        if after_underscore then None else scan_digits rest true acc
      else
        match hex_digit a with
        | Some d => scan_digits rest false (16 * acc + d)%Z
        | None => if after_underscore then None else Some (acc, s)
        end
  end.

Definition strip_sign (s : string) : bool * string :=
  match s with
  | String "+" rest => (false, rest)
  | String "-" rest => (true, rest)
  | _ => (false, s)
  end.

(** The prefix [0x] or [0X], after which one underscore may stand. *)
Definition strip_prefix (s : string) : string :=
  match s with
  | String "0" (String x rest) =>
      if Ascii.eqb x "x" || Ascii.eqb x "X" then
        match rest with
        | String "_" rest' => rest'
        | _ => rest
        end
      else s
  | _ => s
  end.

Definition starts_with_underscore (s : string) : bool :=
  match s with
  | String "_" _ => true
  | _ => false
  end.

Definition invalid_literal : exn :=
  mk_exn ValueError "invalid literal for int() with base 16".

(** [int(s, 16)]: white space around, a sign, the prefix, then digits. *)
Definition int_base16 (s : string) : result Z :=
  let '(negative, s1) := strip_sign (skip_spaces s) in
  let s2 := strip_prefix s1 in
  if starts_with_underscore s2 then Raise invalid_literal
  else match scan_digits s2 false 0 with
       | None => Raise invalid_literal
       | Some (n, rest) =>
           if (String.length rest =? String.length s2)%nat then Raise invalid_literal
           else match skip_spaces rest with
                | EmptyString => Ok (if negative then (- n)%Z else n)
                | _ => Raise invalid_literal
                end
       end.

End Py.

Import Py.
Local Open Scope py_scope.

(** ** [divide] (lines 110-154) *)

Definition msg_division_by_zero : message :=
  Msg "Type error: division by 0." [].
Definition msg_division_by (b : value) : message :=
  Msg "Type error: division by '{0}'." [ArgValue b].
Definition msg_error_occurred (e : exn) : message :=
  Msg "Error '{0}' occurred. Arguments {1}." [ArgExnStr e; ArgExnArgs e].
Definition msg_no_errors : message :=
  Msg "No errors" [].

Section Divide.

(** The interpreter the call runs in. *)
Variable py : interpreter.

(** The [except] clauses of [divide], in source order.  A clause leaves the
    local [result] as it was.  The second clause renders [b] before it
    prints, and the rendering can raise; the last one renders the text and
    the arguments of the exception, which are strings. *)
Definition divide_clauses (b result : value) : list (clause value) :=
  [ (ZeroDivisionError, fun _ => print msg_division_by_zero ;; ret result);
    (TypeError,
     fun _ => _ <- lift (format_field py b) ;; print (msg_division_by b) ;; ret result);
    (Exception, fun e => print (msg_error_occurred e) ;; ret result) ].

(** The guarded statement [result = float(a / b)]; [a / b] is a [float]
    whenever it is defined, and [float] returns a [float] unchanged. *)
Definition divide_body (a b : value) : M value :=
  q <- lift (truediv a b) ;; ret (VFloat q).

Definition divide (a b : value) : M value :=
  let result := VNone in
  finally_rebind
    (try_except (divide_body a b)
                (divide_clauses b result)
                (fun result => print msg_no_errors ;; ret result))
    (fun result => if is_None result then VInt 0 else result).

End Divide.

(** ** [read_json_file] (lines 234-285) *)

(** *** The text of a path *)

Fixpoint has_nul (s : string) : bool :=
  match s with
  | String a rest => (code a =? 0)%N || has_nul rest
  | EmptyString => false
  end.

(** The length of a string in the encoding of the file system, UTF-8: two
    bytes for a code point from 128 on. *)
Fixpoint bytes (s : string) : nat :=
  match s with
  | String a rest => ((if (code a <? 128)%N then 1 else 2) + bytes rest)%nat
  | EmptyString => O
  end.

(** The length of the text of a path, in bytes. *)
Definition path_bytes (p : path) : nat := bytes (path_text p).

(** *** Opening a file *)

(** The errors of the system call [open] on a tree without links. *)
Inductive errno :=
  | ENOENT
  | ENOTDIR
  | EACCES
  | ENAMETOOLONG.

Definition NAME_MAX : nat := 255.
Definition PATH_MAX : nat := 4096.

Fixpoint find_entry (name : string) (entries : list (string * node)) : option node :=
  match entries with
  | [] => None
  | (n, child) :: rest => if String.eqb n name then Some child else find_entry name rest
  end.

(** The walk of the system along the components, from the node [here]
    with its ancestors [above], nearest first.  What was reached must be a
    directory, and one the process may search, before the next component
    is looked at; [..] goes one up and stays at the root; a name longer
    than [NAME_MAX] bytes is refused by the directory; a name that is not
    an entry is missing. *)
Fixpoint walk (above : list node) (here : node) (components : list string)
    : errno + node :=
  match components with
  | [] => inr here
  | name :: rest =>
      match here with
      | Regular _ _ => inl ENOTDIR
      | Directory _ searchable entries =>
          if negb searchable then inl EACCES
          else if String.eqb name ".." then
            match above with
            | [] => walk [] here rest
            | up :: above' => walk above' up rest
            end
          else if (NAME_MAX <? bytes name)%nat then inl ENAMETOOLONG
          else match find_entry name entries with
               | None => inl ENOENT
               | Some child => walk (here :: above) child rest
               end
      end
  end.

(** Where a path leads.  A text that does not fit in [PATH_MAX] bytes with
    its final NUL is refused before the walk; the working directory is the
    root, so a relative path and an absolute one start at the same place. *)
Definition locate (fs : tree) (p : path) : errno + node :=
  if (PATH_MAX <=? path_bytes p)%nat then inl ENAMETOOLONG
  else walk [] (Directory true true (root_entries fs)) (parts p).

(** [fs !! s] is the node the path made of the string [s] leads to, if it
    leads to one; [<[name := n]> fs] has the entry [n] under [name] in the
    root; [∅] is the tree of an empty root. *)
#[global] Instance tree_lookup : Lookup string node tree :=
  fun s fs =>
    match locate fs (path_of_string s) with
    | inr n => Some n
    | inl _ => None
    end.

#[global] Instance tree_insert : Insert string node tree :=
  fun name n fs => Tree ((name, n) :: root_entries fs).

#[global] Instance tree_empty : Empty tree := Tree [].

(** The exception [open] raises for an error of the system. *)
Definition os_error (e : errno) : exn :=
  match e with
  | ENOENT => mk_exn FileNotFoundError "No such file or directory"
  | ENOTDIR => mk_exn NotADirectoryError "Not a directory"
  | EACCES => mk_exn PermissionError "Permission denied"
  | ENAMETOOLONG => mk_exn OSError "File name too long"
  end.

(** What [open] for reading comes to: the bytes of the file, or an
    exception.  A NUL in the path is refused before the system is asked; a
    file or a directory the process may not read is refused by the system;
    a directory it may read is opened by the system and refused by
    [open]. *)
Definition open_outcome (fs : tree) (p : path) : result string :=
  if existsb has_nul (parts p) then Raise (mk_exn ValueError "embedded null byte")
  else match locate fs p with
       | inl e => Raise (os_error e)
       | inr (Regular true content) => Ok content
       | inr (Regular false _) => Raise (os_error EACCES)
       | inr (Directory true _ _) => Raise (mk_exn IsADirectoryError "Is a directory")
       | inr (Directory false _ _) => Raise (os_error EACCES)
       end.

(** An open file: its descriptor and the bytes it reads. *)
Record handle := Handle { fd : nat; data : string }.

(** [path.open('r', encoding='utf-8')]: a failed open acquires nothing; a
    successful one takes a descriptor that is not in use. *)
Definition open_read (p : path) : M handle :=
  fun w =>
    match open_outcome (files w) p with
    | Raise e => (Raise e, w)
    | Ok content =>
        let d := fresh (handles w) in
        (Ok (Handle d content),
         World (files w) ({[d]} ∪ handles w) (console w) (errlog w))
    end.

(** [file.close()] *)
Definition close (file : handle) : M unit :=
  fun w => (Ok tt, World (files w) (handles w ∖ {[fd file]}) (console w) (errlog w)).

(** [with path.open(...) as file: body]: the file is closed when the body
    is left, by its end or by an exception, which then goes on. *)
Definition with_open {A} (p : path) (body : handle -> M A) : M A :=
  file <- open_read p ;;
  fun w =>
    let '(r, w') := body file w in
    let '(_, w'') := close file w' in
    (r, w'').

Definition msg_file_not_found (p : path) : message :=
  Msg "File not found: {file_path}" [ArgPath p].
Definition msg_permission_denied (p : path) : message :=
  Msg "Permission denied accessing file: {file_path}" [ArgPath p].
Definition msg_invalid_json (p : path) (e : exn) : message :=
  Msg "Invalid JSON format in {file_path}: {str(e)}" [ArgPath p; ArgExnStr e].
Definition msg_encoding_error (p : path) : message :=
  Msg "File encoding error in {file_path}. Expected UTF-8" [ArgPath p].
Definition msg_is_a_directory (p : path) : message :=
  Msg "Path is a directory, not a file: {file_path}" [ArgPath p].
Definition msg_unexpected_error (p : path) (e : exn) : message :=
  Msg "Unexpected error reading {file_path}: {str(e)}" [ArgPath p; ArgExnStr e].

(** The [except] clauses of [read_json_file], in source order. *)
Definition read_clauses (p : path) (result : value) : list (clause value) :=
  [ (FileNotFoundError, fun _ => logging_error (msg_file_not_found p) ;; ret result);
    (PermissionError, fun _ => logging_error (msg_permission_denied p) ;; ret result);
    (JSONDecodeError, fun e => logging_error (msg_invalid_json p e) ;; ret result);
    (UnicodeDecodeError, fun _ => logging_error (msg_encoding_error p) ;; ret result);
    (IsADirectoryError, fun _ => logging_error (msg_is_a_directory p) ;; ret result);
    (Exception, fun e => logging_error (msg_unexpected_error p e) ;; ret result) ].

Section ReadJsonFile.

(** [json.load] of the standard library, on a text handle over the given
    bytes: the decoded document, or the exception the decoding raises. *)
Variable json_load : string -> result value.

(** The guarded statement: [with ... as file: result = json.load(file)]. *)
Definition read_body (p : path) : M value :=
  with_open p (fun file => lift (json_load (data file))).

(** [file_path] is rebound to the path before the [try] statement is
    entered; the lines logged show that path. *)
Definition read_json_file (file_path : value) : M value :=
  file_path <- lift (Path file_path) ;;
  let result := VDict [] in
  result <- try_except (read_body file_path)
                       (read_clauses file_path result) ret ;;
  ret result.

End ReadJsonFile.

(** ** [parse_color] (lines 361-434) *)

Record RGB := mkRGB { red : value; green : value; blue : value }.

Definition COLOR_NAMES : gmap string (Z * Z * Z) :=
  list_to_map
    [ ("red", (255, 0, 0));
      ("green", (0, 255, 0));
      ("blue", (0, 0, 255));
      ("white", (255, 255, 255));
      ("black", (0, 0, 0)) ].

(** [max(0, min(255, c))] *)
Definition clamp (c : value) : result value :=
  match min_int 255 c with
  | Ok m => max_int 0 m
  | Raise e => Raise e
  end.

(** [[max(0, min(255, c)) for c in color]] *)
Fixpoint clamp_all (color : list value) : result (list value) :=
  match color with
  | [] => Ok []
  | c :: rest =>
      match clamp c with
      | Raise e => Raise e
      | Ok x =>
          match clamp_all rest with
          | Raise e => Raise e
          | Ok xs => Ok (x :: xs)
          end
      end
  end.

Definition invalid_color_format : exn := mk_exn ValueError "Invalid color format".

Definition hex_channel (i j : nat) (color : string) : M value :=
  n <- lift (int_base16 (slice i j color)) ;; ret (VInt n).

(** The suite of the [try] statement; a [return] in it leaves the function
    with its value. *)
Definition parse_color_body (color : value) : M RGB :=
  match color with
  | VStr s =>
      let color := lower (lstrip "#" s) in
      match COLOR_NAMES !! color with
      | Some (r, g, b) => ret (mkRGB (VInt r) (VInt g) (VInt b))
      | None =>
          if (String.length color =? 6)%nat then
            r <- hex_channel 0 2 color ;;
            g <- hex_channel 2 4 color ;;
            b <- hex_channel 4 6 color ;;
            ret (mkRGB r g b)
          else raise invalid_color_format
      end
  | VTuple items =>
      if (List.length items =? 3)%nat then
        clamped <- lift (clamp_all items) ;;
        match clamped with
        | [r; g; b] => ret (mkRGB r g b)
        | _ => raise (mk_exn ValueError "wrong number of values to unpack")
        end
      else raise invalid_color_format
  | _ => raise invalid_color_format
  end.

Definition black : RGB := mkRGB (VInt 0) (VInt 0) (VInt 0).

Definition parse_color (color : value) : M RGB :=
  try_except (parse_color_body color)
             [ (Exception, fun _ => ret black) ]
             ret.

(** ** Calls, failures and diagnostics *)

(** A call to one of the three utilities, and what it returns. *)
Inductive call :=
  | Divide (a b : value)
  | ReadJsonFile (file_path : value)
  | ParseColor (color : value).

Inductive answer :=
  | Value (v : value)
  | Color (c : RGB).

Definition returning {A} (wrap : A -> answer) (c : M A) : M answer :=
  x <- c ;; ret (wrap x).

Section Calls.

Variable py : interpreter.
Variable json_load : string -> result value.

Definition run (c : call) : M answer :=
  match c with
  | Divide a b => returning Value (divide py a b)
  | ReadJsonFile p => returning Value (read_json_file json_load p)
  | ParseColor color => returning Color (parse_color color)
  end.

(** The operation of a call without its handlers: the call fails when this
    raises. *)
Definition attempt (c : call) : M answer :=
  match c with
  | Divide a b => returning Value (divide_body a b)
  | ReadJsonFile p =>
      returning Value (path <- lift (Path p) ;; read_body json_load path)
  | ParseColor color => returning Color (parse_color_body color)
  end.

End Calls.

(** The failure categories of the error taxonomy. *)
Inductive category :=
  | DivideByZero
  | TypeMismatch
  | ResourceNotFound
  | PermissionDenied
  | DecodeError
  | EncodingError
  | PathIsNotAFile
  | UnexpectedError.

(** The category a line of output reports; [No errors] reports none. *)
Definition category_of (m : message) : option category :=
  let t := template m in
  if String.eqb t "Type error: division by 0." then Some DivideByZero
  else if String.eqb t "Type error: division by '{0}'." then Some TypeMismatch
  else if String.eqb t "Error '{0}' occurred. Arguments {1}." then Some UnexpectedError
  else if String.eqb t "File not found: {file_path}" then Some ResourceNotFound
  else if String.eqb t "Permission denied accessing file: {file_path}" then Some PermissionDenied
  else if String.eqb t "Invalid JSON format in {file_path}: {str(e)}" then Some DecodeError
  else if String.eqb t "File encoding error in {file_path}. Expected UTF-8" then Some EncodingError
  else if String.eqb t "Path is a directory, not a file: {file_path}" then Some PathIsNotAFile
  else if String.eqb t "Unexpected error reading {file_path}: {str(e)}" then Some UnexpectedError
  else None.

(** The lines that report a failure. *)
Definition diagnostics (out : list message) : list message :=
  List.filter (fun m => bool_decide (is_Some (category_of m))) out.

(** The exception classes of a utility's taxonomy with their categories,
    from the most specific to the catch-all. *)
Definition categories (c : call) : list (exn_class * category) :=
  match c with
  | Divide _ _ =>
      [ (ZeroDivisionError, DivideByZero);
        (TypeError, TypeMismatch);
        (Exception, UnexpectedError) ]
  | ReadJsonFile _ =>
      [ (FileNotFoundError, ResourceNotFound);
        (PermissionError, PermissionDenied);
        (JSONDecodeError, DecodeError);
        (UnicodeDecodeError, EncodingError);
        (IsADirectoryError, PathIsNotAFile);
        (Exception, UnexpectedError) ]
  | ParseColor _ => [ (Exception, UnexpectedError) ]
  end.

(** First match wins. *)
Definition first_match (table : list (exn_class * category)) (c : exn_class) : option category :=
  match List.find (fun row => issubclass c (fst row)) table with
  | Some row => Some (snd row)
  | None => None
  end.

(** No class of the list is reached only through an earlier, wider one. *)
Fixpoint specific_first (classes : list exn_class) : bool :=
  match classes with
  | [] => true
  | c :: rest =>
      forallb (fun d => negb (issubclass d c)) rest && specific_first rest
  end.

(** What a run wrote to the console and to the log. *)
Definition new_messages (before after : world) : list message :=
  drop (List.length (console before)) (console after)
  ++ drop (List.length (errlog before)) (errlog after).

(** The value a failing call falls back to. *)
Definition default_answer (c : call) : answer :=
  match c with
  | Divide _ _ => Value (VInt 0)
  | ReadJsonFile _ => Value (VDict [])
  | ParseColor _ => Color black
  end.

(** The call gets as far as its [try] statement. *)
Definition reaches_try (c : call) : bool :=
  match c with
  | ReadJsonFile (VStr _) => true
  | ReadJsonFile _ => false
  | _ => true
  end.

(** Only [divide] and [read_json_file] write diagnostics. *)
Definition writes_diagnostics (c : call) : bool :=
  match c with
  | ParseColor _ => false
  | _ => true
  end.

(** The world after [lines] were printed, and after they were logged. *)
Definition printed (w : world) (lines : list message) : world :=
  World (files w) (handles w) (console w ++ lines) (errlog w).

Definition logged (w : world) (lines : list message) : world :=
  World (files w) (handles w) (console w) (errlog w ++ lines).

(** Where a utility writes: [divide] prints, [read_json_file] logs. *)
Definition written (c : call) (w : world) (lines : list message) : world :=
  match c with
  | Divide _ _ => printed w lines
  | _ => logged w lines
  end.

(** The property that a failing call reports exactly one category. *)
Definition reports_one_category (py : interpreter)
    (json_load : string -> result value) (c : call) (w : world) (e : exn) : Prop :=
  exists m k,
    new_messages w (snd (run py json_load c w)) = [m]
    /\ category_of m = Some k
    /\ first_match (categories c) (exn_cls e) = Some k.

(** The value has the type the utility declares for its result. *)
Definition matches_declared_type (c : call) (ans : answer) : bool :=
  match c, ans with
  | Divide _ _, Value v => is_number v
  | ReadJsonFile _, Value v => is_dict v
  | ParseColor _, Color _ => true
  | _, _ => false
  end.

(** The property that no call lets an exception reach the caller. *)
Definition never_propagates (py : interpreter)
    (json_load : string -> result value) : Prop :=
  forall c w, exists ans w', run py json_load c w = (Ok ans, w').

(** The decoder raises only exceptions derived from [Exception]. *)
Definition raises_exceptions_only (json_load : string -> result value) : Prop :=
  forall content e,
    json_load content = Raise e -> issubclass (exn_cls e) Exception = true.

(** The same for a whole decoder: whatever call fails, it reports exactly
    one category. *)
Definition one_category_per_failure (py : interpreter)
    (json_load : string -> result value) : Prop :=
  forall c w e,
    fst (attempt json_load c w) = Raise e -> reports_one_category py json_load c w e.

(** [max(0, min(255, n))] on integers. *)
Definition clamp_channel (n : Z) : Z := Z.max 0 (Z.min 255 n).

(** [0 <= v <= 255] for a number. *)
Definition channel_in_range (v : value) : bool :=
  match v with
  | VInt n => (0 <=? n)%Z && (n <=? 255)%Z
  | VBool _ => true
  | VFloat f =>
      negb (is_cmp Lt (float_compare_int f 0)) && negb (is_cmp Gt (float_compare_int f 255))
      && bool_decide (is_Some (float_compare_int f 0))
  | _ => false
  end.

Definition rgb_in_range (c : RGB) : bool :=
  channel_in_range (red c) && channel_in_range (green c) && channel_in_range (blue c).

(** The clause selected for [e] can write its line: of all the clauses
    only the second one of [divide] renders an argument, [b]. *)
Definition line_can_be_written (py : interpreter) (c : call) (e : exn) : bool :=
  match c with
  | Divide _ b =>
      issubclass (exn_cls e) ZeroDivisionError
      || negb (issubclass (exn_cls e) TypeError)
      || is_Ok (format_field py b)
  | _ => true
  end.

(** The operands of a division are numbers, or the second one can be
    rendered. *)
Definition divisor_can_be_named (py : interpreter) (c : call) : bool :=
  match c with
  | Divide a b => is_number a && is_number b || is_Ok (format_field py b)
  | _ => true
  end.

(** The interpreter of the notebook: the limit of 4300 digits, and room
    for some hundreds of nested calls. *)
Definition notebook_kernel : interpreter := Interpreter 4300 900.

(** The system reports that there is no such file or directory: a name on
    the way, or the last one, is not an entry of the directory reached. *)
Definition no_such_file (fs : tree) (s : string) : bool :=
  match locate fs (path_of_string s) with
  | inl ENOENT => true
  | _ => false
  end.

(** A string that can be a file name: it has no NUL. *)
Definition is_path (p : string) : bool := negb (has_nul p).

(** Worlds and a decoder for the examples.  [sample_json_load] agrees with
    [json.load] on the three documents it knows and treats every other
    content as undecodable. *)
Definition empty_world : world := World ∅ ∅ [] [].

Definition sample_world : world :=
  World (<["data" := Directory true true []]>
          (<["list.json" := Regular true "[]"]>
            (<["secret.json" := Regular false "{}"]> ∅)))
        ∅ [] [].

Definition sample_json_load (content : string) : result value :=
  if String.eqb content "[]" then Ok (VList [])
  else if String.eqb content "{}" then Ok (VDict [])
  else if String.eqb content "42" then Ok (VInt 42)
  else Raise (mk_exn JSONDecodeError "Expecting value").

(** [type(v) is int] *)
Definition is_int (v : value) : bool :=
  match v with
  | VInt _ => true
  | _ => false
  end.

(** The property that a division succeeds: the quotient comes back as it is
    and no line reporting a failure is written. *)
Definition divides_cleanly (py : interpreter) (a b : value) (w : world) : Prop :=
  exists q,
    truediv a b = Ok q
    /\ fst (divide py a b w) = Ok (VFloat q)
    /\ diagnostics (new_messages w (snd (divide py a b w))) = [].

Definition quotient_too_large : exn :=
  mk_exn OverflowError "integer division result too large for a float".

(** ** The earlier versions of [divide] *)

Module AntiPattern.

(** Lines 38-43.  [result = a / b] under a bare [except:], which catches
    every exception and binds [result] to [None]. *)
Definition divide (a b : value) : M value :=
  try_except (q <- lift (truediv a b) ;; ret (VFloat q))
             [ (BaseException, fun _ => ret VNone) ]
             ret.

End AntiPattern.

Module FirstRewrite.

(** How the function is left: by [return result], or by the
    [AttributeError] of the access [e.message] in the last clause; an
    exception object has no attribute [message], and the class
    [AttributeError] is not one of the modelled hierarchy, so it is kept
    apart, with the exception whose attribute was asked for. *)
Inductive leaving :=
  | Returns (result : value)
  | AttributeError (e : exn).

(** Lines 69-88.  The arguments of [format] are evaluated before [print] is
    called, so the last clause prints nothing; the second clause renders
    [b], which can raise; the [finally] suite runs on every way out. *)
Definition divide (py : interpreter) (a b : value) : M leaving :=
  let result := VNone in
  finally_rebind
    (try_except (q <- lift (truediv a b) ;; ret (VFloat q))
                [ (ZeroDivisionError,
                   fun _ => print msg_division_by_zero ;; ret (Returns result));
                  (TypeError,
                   fun _ =>
                     _ <- lift (format_field py b) ;;
                     print (msg_division_by b) ;; ret (Returns result));
                  (Exception, fun e => ret (AttributeError e)) ]
                (fun result => print msg_no_errors ;; ret (Returns result)))
    (fun way =>
       match way with
       | Returns result => Returns (if is_None result then VInt 0 else result)
       | AttributeError e => AttributeError e
       end).

End FirstRewrite.

(** ** The two cells that read [file.txt] *)

Section FileCells.

(** [f.read()] on a text handle over the given bytes: the text, or the
    exception the decoding raises. *)
Variable read_text : string -> result string.

Definition read (file : handle) : M string := lift (read_text (data file)).

(** Lines 196-200: [open], [read], [1 / 0], [close].  The name has one
    component, so the system walks it as [pathlib] would. *)
Definition read_without_with : M unit :=
  f <- open_read (path_of_string "file.txt") ;;
  content <- read f ;;
  _ <- lift (truediv (VInt 1) (VInt 0)) ;;
  close f.

(** Lines 216-219: the same under a [with] statement. *)
Definition read_with_with : M unit :=
  with_open (path_of_string "file.txt")
    (fun f =>
       content <- read f ;;
       _ <- lift (truediv (VInt 1) (VInt 0)) ;;
       ret tt).

End FileCells.

(** ** Vocabulary of the further properties *)

(** [c in s] for a character. *)
Fixpoint contains (c : ascii) (s : string) : bool :=
  match s with
  | String a rest => Ascii.eqb a c || contains c rest
  | EmptyString => false
  end.

(** The 256 code points of a string. *)
Definition all_chars : list ascii := map ascii_of_nat (seq 0 256).

(** An [RGB] is a tuple: [isinstance(RGB(...), tuple)]. *)
Definition as_tuple (c : RGB) : value := VTuple [red c; green c; blue c].

(** The normal form [parse_color] gives a string before it looks at it. *)
Definition normalized (s : string) : string := lower (lstrip "#" s).

(** [int(a + b, 16)] is a value in 0..255, or the first character is the
    minus sign. *)
Definition two_chars_in_range (a b : ascii) : bool :=
  match int_base16 (String a (String b EmptyString)) with
  | Ok n => (0 <=? n)%Z && (n <=? 255)%Z || Ascii.eqb a "-"
  | Raise _ => true
  end.

(** Two hexadecimal digits, in either case, are read as [16 * d1 + d2]. *)
Definition two_digits_read (a b : ascii) : bool :=
  match hex_digit a, hex_digit b with
  | Some d1, Some d2 =>
      match int_base16 (String (lower_char a) (String (lower_char b) EmptyString)) with
      | Ok n => (n =? 16 * d1 + d2)%Z && (0 <=? n)%Z && (n <=? 255)%Z
      | Raise _ => false
      end
  | _, _ => true
  end.

(** What lowering does to one character, as far as [parse_color] can see. *)
Definition lower_char_stable (a : ascii) : bool :=
  Ascii.eqb (lower_char (lower_char a)) (lower_char a)
  && Bool.eqb (Ascii.eqb (lower_char a) "#") (Ascii.eqb a "#")
  && Bool.eqb (Ascii.eqb (lower_char a) "-") (Ascii.eqb a "-")
  && match hex_digit a with
     | Some _ => negb (Ascii.eqb a "#")
     | None => true
     end.

(** What the guarded statement of [read_json_file] comes to, read off the
    files alone. *)
Definition read_outcome (json_load : string -> result value)
    (p : string) (fs : tree) : result value :=
  match open_outcome fs (path_of_string p) with
  | Ok content => json_load content
  | Raise e => Raise e
  end.

(** A world where [file.txt] is a readable file. *)
Definition notes_world : world :=
  World (<["file.txt" := Regular true "hello"]> ∅) ∅ [] [].

(** A world with a directory that may be searched but not listed, and one
    that may be listed but not searched. *)
Definition guarded_world : world :=
  World (<["locked" := Directory false true []]>
          (<["closed" := Directory true false [("conf.json", Regular true "{}")]]> ∅))
        ∅ [] [].


(** The line [read_json_file] logs for an error of the system. *)
Definition line_of_errno (p : path) (e : errno) : message :=
  match e with
  | ENOENT => msg_file_not_found p
  | EACCES => msg_permission_denied p
  | ENOTDIR | ENAMETOOLONG => msg_unexpected_error p (os_error e)
  end.

(** * Properties *)

(** ** Rounding an integer to a float never gives zero *)

Section Rounding.

Local Open Scope Z_scope.
Variables prec emax : Z.
Hypothesis prec_pos : 0 < prec.

Lemma shr_1_halves (r : shr_record) :
  0 <= shr_m r -> shr_m (shr_1 r) = shr_m r / 2.
Proof.
  destruct r as [m r s]; simpl. intros Hm.
  destruct m as [| [p | p |] | p]; simpl; try lia;
    first [ apply Z.div_unique with (r := 0); lia
          | apply Z.div_unique with (r := 1); lia ].
Qed.

Lemma iter_shr_1 (p : positive) :
  forall r, 0 <= shr_m r -> shr_m (SpecFloat.iter_pos shr_1 p r) = shr_m r / 2 ^ Zpos p.
Proof.
  induction p as [p IH | p IH |]; intros r Hr; cbn [SpecFloat.iter_pos].
  - assert (Hpow : 0 < 2 ^ Zpos p) by (apply Z.pow_pos_nonneg; lia).
    assert (H1 : shr_m (shr_1 r) = shr_m r / 2) by (apply shr_1_halves; lia).
    assert (H1n : 0 <= shr_m (shr_1 r)) by (rewrite H1; apply Z.div_pos; lia).
    pose proof (IH _ H1n) as H2.
    assert (H2n : 0 <= shr_m (SpecFloat.iter_pos shr_1 p (shr_1 r)))
      by (rewrite H2; apply Z.div_pos; lia).
    rewrite (IH _ H2n), H2, H1.
    rewrite !Z.div_div by lia.
    f_equal. rewrite (Pos2Z.inj_xI p).
    replace (2 * Zpos p + 1) with (1 + Zpos p + Zpos p) by lia.
    rewrite !Z.pow_add_r by lia. rewrite Z.pow_1_r. lia.
  - assert (Hpow : 0 < 2 ^ Zpos p) by (apply Z.pow_pos_nonneg; lia).
    pose proof (IH _ Hr) as H2.
    assert (H2n : 0 <= shr_m (SpecFloat.iter_pos shr_1 p r))
      by (rewrite H2; apply Z.div_pos; lia).
    rewrite (IH _ H2n), H2.
    rewrite !Z.div_div by lia.
    f_equal. rewrite (Pos2Z.inj_xO p).
    replace (2 * Zpos p) with (Zpos p + Zpos p) by lia.
    rewrite Z.pow_add_r by lia. reflexivity.
  - rewrite shr_1_halves by lia. reflexivity.
Qed.

Lemma digits2_pos_lower (m : positive) :
  2 ^ (Zpos (digits2_pos m) - 1) <= Zpos m.
Proof.
  assert (Hstep : forall d x, 0 < d -> 2 ^ (d - 1) <= x -> 2 ^ (Z.succ d - 1) <= 2 * x).
  { intros d x Hd Hx.
    replace (Z.succ d - 1) with (1 + (d - 1)) by lia.
    rewrite Z.pow_add_r, Z.pow_1_r by lia. lia. }
  induction m as [m IH | m IH |]; cbn [digits2_pos].
  - rewrite Pos2Z.inj_succ, (Pos2Z.inj_xI m).
    apply Z.le_trans with (2 * Zpos m); [apply Hstep; [lia | exact IH] | lia].
  - rewrite Pos2Z.inj_succ, (Pos2Z.inj_xO m).
    apply Hstep; [lia | exact IH].
  - discriminate.
Qed.

(** A positive mantissa at an exponent not below [emin] stays positive
    when it is shifted to its format exponent. *)
Lemma shr_fexp_positive (m : positive) (e : Z) (l : location) :
  emin prec emax <= e ->
  0 < shr_m (fst (shr_fexp prec emax (Zpos m) e l))
  /\ emin prec emax <= snd (shr_fexp prec emax (Zpos m) e l).
Proof.
  intros He. unfold shr_fexp, shr. simpl Zdigits2.
  set (d := Zpos (digits2_pos m)).
  set (r := shr_record_of_loc (Zpos m) l).
  assert (Hr : shr_m r = Zpos m) by (unfold r; destruct l as [| []]; reflexivity).
  destruct (fexp prec emax (d + e) - e) as [| k | k] eqn:Hk; simpl; rewrite ?Hr; try lia.
  split; [| lia].
  rewrite iter_shr_1 by (rewrite Hr; lia). rewrite Hr.
  apply Z.div_str_pos. split; [apply Z.pow_pos_nonneg; lia |].
  apply Z.le_trans with (2 ^ (d - 1)); [| apply digits2_pos_lower].
  apply Z.pow_le_mono_r; [lia |].
  unfold fexp in Hk. lia.
Qed.

Lemma binary_round_aux_nonzero (s : bool) (m : positive) (e : Z) (l : location) :
  emin prec emax <= e ->
  forall z, binary_round_aux prec emax s (Zpos m) e l <> S754_zero z.
Proof.
  intros He z. unfold binary_round_aux.
  destruct (shr_fexp_positive m e l He) as [H1 H1e].
  destruct (shr_fexp prec emax (Zpos m) e l) as [mrs' e']. simpl in H1, H1e.
  assert (H2 : 0 < round_nearest_even (shr_m mrs') (loc_of_shr_record mrs')).
  { unfold round_nearest_even.
    destruct (loc_of_shr_record mrs') as [| []]; try lia.
    destruct (Z.even (shr_m mrs')); lia. }
  destruct (round_nearest_even (shr_m mrs') (loc_of_shr_record mrs')) as [| m2 | m2]; try lia.
  destruct (shr_fexp_positive m2 e' loc_Exact H1e) as [H3 _].
  destruct (shr_fexp prec emax (Zpos m2) e' loc_Exact) as [mrs'' e'']. simpl in H3.
  destruct (shr_m mrs'') as [| m3 | m3]; try lia.
  destruct (e'' <=? emax - prec); discriminate.
Qed.

Lemma binary_round_nonzero (s : bool) (m : positive) :
  emin prec emax <= 0 ->
  forall z, binary_round prec emax s m 0 <> S754_zero z.
Proof.
  intros He z. unfold binary_round.
  destruct (shl_align m 0 (fexp prec emax (Zpos (digits2_pos m) + 0))) as [mz ez] eqn:Hs.
  apply binary_round_aux_nonzero.
  unfold shl_align in Hs.
  destruct (fexp prec emax (Zpos (digits2_pos m) + 0) - 0) as [| k | k] eqn:Hk;
    inversion Hs; subst; try lia.
  unfold fexp in *. lia.
Qed.

End Rounding.

(** ** Exception classes and clause selection *)

(** Case analysis on the class of an exception known to derive from
    [Exception]. *)
Ltac by_exception_class e H :=
  let c := fresh "c" in
  let t := fresh "t" in
  destruct e as [c t]; cbn [exn_cls] in H;
  destruct c; try discriminate H.

Lemma issubclass_refl (c : exn_class) : issubclass c c = true.
Proof. destruct c; reflexivity. Qed.

Lemma taxonomies_specific_first (c : call) :
  specific_first (map fst (categories c)) = true.
Proof. destruct c; reflexivity. Qed.

Lemma new_messages_printed (w : world) (lines : list message) :
  new_messages w (printed w lines) = lines.
Proof.
  unfold new_messages, printed; simpl.
  rewrite drop_app_length, drop_all. apply app_nil_r.
Qed.

Lemma new_messages_logged (w : world) (lines : list message) :
  new_messages w (logged w lines) = lines.
Proof.
  unfold new_messages, logged; simpl.
  rewrite drop_app_length, drop_all. reflexivity.
Qed.

Lemma new_messages_same (w : world) : new_messages w w = [].
Proof. unfold new_messages. rewrite !drop_all. reflexivity. Qed.

(** ** [divide] *)

(** What [divide] does when the division raises [e], by the class of [e]. *)
Lemma divide_on_failure (py : interpreter) (a b : value) (e : exn) (w : world) :
  truediv a b = Raise e ->
  divide py a b w =
    match select_clause (divide_clauses py b VNone) e with
    | Some c =>
        match snd c e w with
        | (Ok r, w') => (Ok (if is_None r then VInt 0 else r), w')
        | (Raise e', w') => (Raise e', w')
        end
    | None => (Raise e, w)
    end.
Proof.
  intros H. unfold divide, finally_rebind, try_except, divide_body, bind, lift.
  rewrite H. destruct (select_clause _ e); reflexivity.
Qed.

Lemma divide_on_success (py : interpreter) (a b : value) (q : spec_float) (w : world) :
  truediv a b = Ok q ->
  divide py a b w = (Ok (VFloat q), printed w [msg_no_errors]).
Proof.
  intros H. unfold divide, finally_rebind, try_except, divide_body, bind, lift.
  rewrite H. reflexivity.
Qed.

Lemma truediv_zero (a : value) :
  is_number a = true ->
  exists e, truediv a (VInt 0) = Raise e /\ exn_cls e = ZeroDivisionError.
Proof.
  destruct a; try discriminate; intros _.
  - eexists; split; reflexivity.
  - eexists; split; reflexivity.
  - unfold truediv; simpl. eexists; split; reflexivity.
Qed.

Lemma truediv_not_a_number (a b : value) :
  is_number b = false -> truediv a b = Raise unsupported_operands.
Proof.
  intros Hb. unfold truediv.
  destruct b; try discriminate; simpl;
    destruct (as_int a); destruct (as_float a); reflexivity.
Qed.

Lemma truediv_not_numbers (a b : value) :
  is_number a && is_number b = false -> truediv a b = Raise unsupported_operands.
Proof.
  intros H. destruct (is_number b) eqn:Hb; [| apply truediv_not_a_number, Hb].
  rewrite andb_true_r in H. unfold truediv.
  destruct a; try discriminate; reflexivity.
Qed.

(** C4. For every number [a], [divide(a, 0)] returns 0 and prints one line,
    the one of the [ZeroDivisionError] clause, which reports the
    divide-by-zero category; nothing else in the world changes. *)
Theorem divide_by_zero (py : interpreter) (a : value) (w : world) :
  is_number a = true ->
  divide py a (VInt 0) w = (Ok (VInt 0), printed w [msg_division_by_zero])
  /\ category_of msg_division_by_zero = Some DivideByZero.
Proof.
  intros Ha. split; [| reflexivity].
  destruct (truediv_zero a Ha) as ([c t] & He & Hc). simpl in Hc. subst c.
  rewrite (divide_on_failure _ _ _ _ _ He). reflexivity.
Qed.

Lemma divide_by_zero_witness :
  is_number (VInt 92) = true
  /\ divide notebook_kernel (VInt 92) (VInt 0) empty_world
     = (Ok (VInt 0), printed empty_world [msg_division_by_zero]).
Proof.
  split; [reflexivity |].
  apply (divide_by_zero notebook_kernel (VInt 92) empty_world). reflexivity.
Defined.

(** The second clause of [divide]: what it does once [b] is rendered, and
    when the rendering raises. *)
Lemma divide_type_error (py : interpreter) (a b : value) (e : exn) (w : world) :
  truediv a b = Raise e ->
  exn_cls e = TypeError ->
  divide py a b w =
    match format_field py b with
    | Ok _ => (Ok (VInt 0), printed w [msg_division_by b])
    | Raise e' => (Raise e', w)
    end.
Proof.
  intros He Hc. rewrite (divide_on_failure _ _ _ _ _ He).
  destruct e as [c t]. cbn [exn_cls] in Hc. subst c.
  cbn. unfold bind, lift. destruct (format_field py b) as [[] | e']; reflexivity.
Qed.

(** C5, at the failing input. [divide(1, (10 ** 5000,))]: the second
    operand is a tuple, not a number, and the division raises [TypeError];
    the clause renders the tuple, the integer in it has more than 4300
    digits, and the [ValueError] of the rendering leaves [divide]: nothing
    is printed and no 0 is returned. *)
Theorem divide_by_unrenderable :
  is_number (VTuple [VInt (10 ^ 5000)]) = false
  /\ truediv (VInt 1) (VTuple [VInt (10 ^ 5000)]) = Raise unsupported_operands
  /\ format_field notebook_kernel (VTuple [VInt (10 ^ 5000)]) = Raise digits_exceeded
  /\ divide notebook_kernel (VInt 1) (VTuple [VInt (10 ^ 5000)]) empty_world
     = (Raise digits_exceeded, empty_world)
  /\ ~ (exists m, divide notebook_kernel (VInt 1) (VTuple [VInt (10 ^ 5000)]) empty_world
                  = (Ok (VInt 0), printed empty_world [m])).
Proof.
  assert (Hrun : divide notebook_kernel (VInt 1) (VTuple [VInt (10 ^ 5000)]) empty_world
                 = (Raise digits_exceeded, empty_world)) by (vm_compute; reflexivity).
  split; [reflexivity |]. split; [reflexivity |]. split; [vm_compute; reflexivity |].
  split; [exact Hrun |].
  intros [m Hm]. rewrite Hrun in Hm. discriminate Hm.
Qed.

Lemma float_of_int_cases (n : Z) :
  (exists f, float_of_int n = Ok f /\ (n <> 0%Z -> float_is_zero f = false))
  \/ (exists e, float_of_int n = Raise e /\ exn_cls e = OverflowError).
Proof.
  unfold float_of_int.
  destruct n as [| m | m]; cbn [binary_normalize].
  - left. eexists; split; [reflexivity | intros H; now contradiction H].
  - pose proof (binary_round_nonzero Py.prec Py.emax eq_refl false m) as Hnz.
    destruct (binary_round Py.prec Py.emax false m 0) as [z | z | | z mz ez] eqn:Hr.
    + exfalso. apply (Hnz ltac:(discriminate) z). reflexivity.
    + right. eexists; split; reflexivity.
    + left. eexists; split; [reflexivity | reflexivity].
    + left. eexists; split; [reflexivity | reflexivity].
  - pose proof (binary_round_nonzero Py.prec Py.emax eq_refl true m) as Hnz.
    destruct (binary_round Py.prec Py.emax true m 0) as [z | z | | z mz ez] eqn:Hr.
    + exfalso. apply (Hnz ltac:(discriminate) z). reflexivity.
    + right. eexists; split; reflexivity.
    + left. eexists; split; [reflexivity | reflexivity].
    + left. eexists; split; [reflexivity | reflexivity].
Qed.

Lemma float_of_bool (b : bool) :
  exists f, float_of_int (int_of_bool b) = Ok f.
Proof. destruct b; eexists; vm_compute; reflexivity. Qed.

Lemma int_true_divide_cases (x y : Z) :
  y <> 0%Z ->
  (exists q, int_true_divide x y = Ok q)
  \/ int_true_divide x y = Raise quotient_too_large.
Proof.
  intros Hy. unfold int_true_divide.
  destruct (Z.eqb_spec y 0) as [-> | _]; [now contradiction Hy |].
  destruct (SFdiv Py.prec Py.emax (exact_of_int x) (exact_of_int y));
    [left | right | left | left]; eauto.
Qed.

Lemma float_true_divide_nonzero (x y : spec_float) :
  float_is_zero y = false -> float_true_divide x y = Ok (SFdiv Py.prec Py.emax x y).
Proof. intros H. unfold float_true_divide. rewrite H. reflexivity. Qed.

(** The division of two numbers with a divisor other than zero gives a
    float, or overflows, and then an [int] is involved. *)
Lemma truediv_nonzero (a b : value) :
  is_number a = true -> is_number b = true -> is_zero b = false ->
  (exists q, truediv a b = Ok q)
  \/ (exists e, truediv a b = Raise e /\ exn_cls e = OverflowError
                /\ is_int a || is_int b = true).
Proof.
  intros Ha Hb Hz.
  assert (Hint : forall x y, y <> 0%Z -> is_int a || is_int b = true ->
            (exists q, int_true_divide x y = Ok q)
            \/ (exists e, int_true_divide x y = Raise e /\ exn_cls e = OverflowError
                          /\ is_int a || is_int b = true)).
  { intros x y Hy Hi. destruct (int_true_divide_cases x y Hy) as [[q Hq] | Hq].
    - left; eauto.
    - right. exists quotient_too_large. auto. }
  destruct a as [| ba | na | fa | | | |]; try discriminate;
    destruct b as [| bb | nb | fb | | | |]; try discriminate;
    unfold truediv; cbn [as_int as_float is_int orb]; simpl in Hz.
  - (* bool / bool *)
    destruct bb; [| discriminate]. destruct ba; left; eexists; reflexivity.
  - (* bool / int *)
    apply Hint; [apply Z.eqb_neq; exact Hz | reflexivity].
  - (* bool / float *)
    destruct (float_of_bool ba) as [f Hf].
    rewrite Hf, float_true_divide_nonzero by exact Hz. left; eauto.
  - (* int / bool *)
    destruct bb; [| discriminate]. apply Hint; [discriminate | reflexivity].
  - (* int / int *)
    apply Hint; [apply Z.eqb_neq; exact Hz | reflexivity].
  - (* int / float *)
    destruct (float_of_int_cases na) as [(f & Hf & _) | (e & He & Hc)].
    + rewrite Hf, float_true_divide_nonzero by exact Hz. left; eauto.
    + rewrite He. right; eauto.
  - (* float / bool *)
    destruct bb; [| discriminate]. left; eexists; reflexivity.
  - (* float / int *)
    destruct (float_of_int_cases nb) as [(f & Hf & Hnz) | (e & He & Hc)].
    + rewrite Hf, float_true_divide_nonzero
        by (apply Hnz; apply Z.eqb_neq; exact Hz).
      left; eauto.
    + rewrite He. right; eauto.
  - (* float / float *)
    rewrite float_true_divide_nonzero by exact Hz. left; eauto.
Qed.

(** C3, as amended. For all numbers [a] and [b] with [b] other than zero,
    [divide(a, b)] returns the float [a / b] unchanged and prints the one
    line [No errors], which reports no failure; unless the division
    overflows the floats, which takes an [int] operand: then it returns 0
    and prints the one line of the catch-all clause. *)
Theorem divide_nonzero (py : interpreter) (a b : value) (w : world) :
  is_number a = true -> is_number b = true -> is_zero b = false ->
  (exists q,
      truediv a b = Ok q
      /\ divide py a b w = (Ok (VFloat q), printed w [msg_no_errors])
      /\ diagnostics [msg_no_errors] = [])
  \/ (exists e,
      truediv a b = Raise e
      /\ exn_cls e = OverflowError
      /\ is_int a || is_int b = true
      /\ divide py a b w = (Ok (VInt 0), printed w [msg_error_occurred e])).
Proof.
  intros Ha Hb Hz.
  destruct (truediv_nonzero a b Ha Hb Hz) as [[q Hq] | (e & He & Hc & Hi)].
  - left. exists q. split; [exact Hq |]. split; [| reflexivity].
    apply divide_on_success, Hq.
  - right. exists e. repeat split; try assumption.
    rewrite (divide_on_failure _ _ _ _ _ He).
    destruct e as [c t]. simpl in Hc. subst c. reflexivity.
Qed.

Lemma divide_nonzero_witness :
  is_number (VInt 10) = true /\ is_number (VInt 2) = true /\ is_zero (VInt 2) = false
  /\ ((exists q,
        truediv (VInt 10) (VInt 2) = Ok q
        /\ divide notebook_kernel (VInt 10) (VInt 2) empty_world
           = (Ok (VFloat q), printed empty_world [msg_no_errors])
        /\ diagnostics [msg_no_errors] = [])
      \/ (exists e,
        truediv (VInt 10) (VInt 2) = Raise e
        /\ exn_cls e = OverflowError
        /\ is_int (VInt 10) || is_int (VInt 2) = true
        /\ divide notebook_kernel (VInt 10) (VInt 2) empty_world
           = (Ok (VInt 0), printed empty_world [msg_error_occurred e]))).
Proof.
  split; [reflexivity |]. split; [reflexivity |]. split; [reflexivity |].
  apply (divide_nonzero notebook_kernel (VInt 10) (VInt 2) empty_world); reflexivity.
Defined.

(** The examples of the docstring: [divide(10, 2)] is [5.0]. *)
Example divide_10_2 :
  fst (divide notebook_kernel (VInt 10) (VInt 2) empty_world)
  = Ok (VFloat (S754_finite false 5629499534213120 (-50))).
Proof. vm_compute. reflexivity. Qed.

(** C3, counterexample. [divide(10 ** 400, 1)]: both operands are numbers
    and the divisor is not zero, yet the quotient is too large for a float;
    the call returns 0 and prints the line of the catch-all clause. *)
Lemma divide_huge_int_counterexample :
  is_number (VInt (10 ^ 400)) = true
  /\ is_number (VInt 1) = true
  /\ is_zero (VInt 1) = false
  /\ divide notebook_kernel (VInt (10 ^ 400)) (VInt 1) empty_world
     = (Ok (VInt 0), printed empty_world [msg_error_occurred quotient_too_large])
  /\ category_of (msg_error_occurred quotient_too_large) = Some UnexpectedError
  /\ ~ divides_cleanly notebook_kernel (VInt (10 ^ 400)) (VInt 1) empty_world.
Proof.
  split; [reflexivity |]. split; [reflexivity |]. split; [reflexivity |].
  split; [vm_compute; reflexivity |]. split; [reflexivity |].
  intros (q & Hq & _). vm_compute in Hq. discriminate.
Qed.

(** The exceptions a division raises. *)
Lemma float_of_int_raises (n : Z) (e : exn) :
  float_of_int n = Raise e -> exn_cls e = OverflowError.
Proof.
  intros H. destruct (float_of_int_cases n) as [(f & Hf & _) | (e' & He & Hc)].
  - congruence.
  - congruence.
Qed.

Lemma int_true_divide_raises (x y : Z) (e : exn) :
  int_true_divide x y = Raise e ->
  exn_cls e = ZeroDivisionError \/ exn_cls e = OverflowError.
Proof.
  unfold int_true_divide. destruct (y =? 0)%Z.
  - intros [= <-]. left; reflexivity.
  - destruct (SFdiv Py.prec Py.emax (exact_of_int x) (exact_of_int y));
      intros [= <-]. right; reflexivity.
Qed.

Lemma float_true_divide_raises (x y : spec_float) (e : exn) :
  float_true_divide x y = Raise e -> exn_cls e = ZeroDivisionError.
Proof.
  unfold float_true_divide. destruct (float_is_zero y); intros [= <-]. reflexivity.
Qed.

Lemma truediv_raises (a b : value) (e : exn) :
  truediv a b = Raise e ->
  exn_cls e = ZeroDivisionError \/ exn_cls e = OverflowError \/ exn_cls e = TypeError.
Proof.
  assert (Hi : forall x y, int_true_divide x y = Raise e ->
                 exn_cls e = ZeroDivisionError \/ exn_cls e = OverflowError \/ exn_cls e = TypeError).
  { intros x y H. destruct (int_true_divide_raises x y e H); auto. }
  assert (Hf : forall ra rb,
             (forall e', ra = Raise e' -> exn_cls e' = OverflowError) ->
             (forall e', rb = Raise e' -> exn_cls e' = OverflowError) ->
             match ra with
             | Raise e' => Raise e'
             | Ok x => match rb with
                       | Raise e' => Raise e'
                       | Ok y => float_true_divide x y
                       end
             end = Raise e ->
             exn_cls e = ZeroDivisionError \/ exn_cls e = OverflowError \/ exn_cls e = TypeError).
  { intros [x | ea] rb Ha Hb H.
    - destruct rb as [y | eb].
      + left. eapply float_true_divide_raises, H.
      + injection H as <-. right; left. apply Hb; reflexivity.
    - injection H as <-. right; left. apply Ha; reflexivity. }
  assert (Hov : forall v r e', as_float v = Some r -> r = Raise e' ->
                  exn_cls e' = OverflowError).
  { intros v r e' Hv ->. destruct v; try discriminate; injection Hv as Hv;
      try discriminate; eapply float_of_int_raises, Hv. }
  assert (Hmixed : match as_float a, as_float b with
                   | Some ra, Some rb =>
                       match ra with
                       | Raise e' => Raise e'
                       | Ok x => match rb with
                                 | Raise e' => Raise e'
                                 | Ok y => float_true_divide x y
                                 end
                       end
                   | _, _ => Raise unsupported_operands
                   end = Raise e ->
                   exn_cls e = ZeroDivisionError \/ exn_cls e = OverflowError
                   \/ exn_cls e = TypeError).
  { destruct (as_float a) as [ra |] eqn:Ha; [destruct (as_float b) as [rb |] eqn:Hb |].
    - apply Hf; intros e'; [apply (Hov a) | apply (Hov b)]; assumption.
    - intros [= <-]. right; right; reflexivity.
    - intros [= <-]. right; right; reflexivity. }
  unfold truediv.
  destruct (as_int a) as [x |]; [destruct (as_int b) as [y |] |];
    [apply Hi | exact Hmixed | exact Hmixed].
Qed.

Lemma raised_by_division_is_caught (c : exn_class) :
  c = ZeroDivisionError \/ c = OverflowError \/ c = TypeError ->
  issubclass c Exception = true.
Proof. intros [-> | [-> | ->]]; reflexivity. Qed.

(** A [TypeError] comes from an operand that is not a number. *)
Lemma as_float_number (v : value) : is_number v = true -> exists r, as_float v = Some r.
Proof. destruct v; try discriminate; intros _; eexists; reflexivity. Qed.

Lemma truediv_type_error (a b : value) (e : exn) :
  truediv a b = Raise e ->
  exn_cls e = TypeError ->
  is_number a && is_number b = false.
Proof.
  intros He Hc.
  destruct (is_number a) eqn:Ha; [| reflexivity].
  destruct (is_number b) eqn:Hb; [| reflexivity].
  exfalso. revert He. unfold truediv.
  assert (Hi : forall x y, int_true_divide x y = Raise e -> False).
  { intros x y H. destruct (int_true_divide_raises x y e H); congruence. }
  destruct (as_float_number a Ha) as [ra Hra].
  destruct (as_float_number b Hb) as [rb Hrb].
  assert (Hmixed : match ra with
                   | Raise e' => Raise e'
                   | Ok x => match rb with
                             | Raise e' => Raise e'
                             | Ok y => float_true_divide x y
                             end
                   end = Raise e -> False).
  { assert (Hov : forall v r e', as_float v = Some r -> r = Raise e' ->
                    exn_cls e' = OverflowError).
    { intros v r e' Hv ->. destruct v; try discriminate; injection Hv as Hv;
        try discriminate; eapply float_of_int_raises, Hv. }
    destruct ra as [x | ea].
    - destruct rb as [y | eb].
      + intros H. apply float_true_divide_raises in H. congruence.
      + intros [= <-]. pose proof (Hov b _ _ Hrb eq_refl). congruence.
    - intros [= <-]. pose proof (Hov a _ _ Hra eq_refl). congruence. }
  rewrite Hra, Hrb.
  destruct (as_int a) as [x |]; [destruct (as_int b) as [y |] |];
    [apply Hi | exact Hmixed | exact Hmixed].
Qed.

(** A failing division, by the class of the exception, when the clause
    can write its line. *)
Lemma divide_failure_by_class (py : interpreter) (a b : value) (e : exn) (w : world) :
  truediv a b = Raise e ->
  issubclass (exn_cls e) Exception = true ->
  line_can_be_written py (Divide a b) e = true ->
  exists m k,
    divide py a b w = (Ok (VInt 0), printed w [m])
    /\ category_of m = Some k
    /\ first_match (categories (Divide a b)) (exn_cls e) = Some k.
Proof.
  intros He Hc Hline. rewrite (divide_on_failure _ _ _ _ _ He).
  unfold line_can_be_written, is_Ok in Hline.
  by_exception_class e Hc; cbn [exn_cls] in Hline;
    try (do 2 eexists; split; [reflexivity | split; reflexivity]).
  cbn in Hline. cbn. unfold bind, lift.
  destruct (format_field py b) as [[] | e']; [| discriminate Hline].
  do 2 eexists; split; [reflexivity | split; reflexivity].
Qed.

(** Two numbers, or a divisor that can be rendered: every clause can write
    its line. *)
Lemma named_divisor_writes (py : interpreter) (a b : value) (e : exn) :
  truediv a b = Raise e ->
  divisor_can_be_named py (Divide a b) = true ->
  line_can_be_written py (Divide a b) e = true.
Proof.
  intros He Hnamed. unfold divisor_can_be_named in Hnamed. unfold line_can_be_written.
  apply orb_true_iff in Hnamed as [Hnum | Hrender]; [| rewrite Hrender; apply orb_true_r].
  destruct (truediv_raises a b e He) as [Hc | [Hc | Hc]]; rewrite Hc; try reflexivity.
  rewrite (truediv_type_error a b e He Hc) in Hnum. discriminate Hnum.
Qed.

(** [divide] returns a number, not [None], on every input whose divisor it
    can name. *)
Lemma divide_returns_number (py : interpreter) (a b : value) (w : world) :
  divisor_can_be_named py (Divide a b) = true ->
  exists v w', divide py a b w = (Ok v, w') /\ is_number v = true.
Proof.
  intros Hnamed. destruct (truediv a b) as [q | e] eqn:Hq.
  - do 2 eexists. split; [apply divide_on_success, Hq | reflexivity].
  - destruct (divide_failure_by_class py a b e w Hq) as (m & k & H & _).
    { apply raised_by_division_is_caught, (truediv_raises a b), Hq. }
    { apply named_divisor_writes; assumption. }
    do 2 eexists. split; [exact H | reflexivity].
Qed.

(** ** [read_json_file] *)

Lemma fresh_handle_released (open : gset nat) :
  ({[fresh open]} ∪ open) ∖ {[fresh open]} = open.
Proof.
  apply set_eq. intros d.
  rewrite elem_of_difference, elem_of_union, !elem_of_singleton.
  split; [intros [[-> | Hd] Hne]; [now contradiction Hne | exact Hd] |].
  intros Hd. split; [right; exact Hd |].
  intros ->. exact (is_fresh open Hd).
Qed.

(** A NUL of the string is in a component of the path, and the other way
    round: the pieces dropped have none. *)
Lemma has_nul_app (s t : string) : has_nul (s +:+ t) = has_nul s || has_nul t.
Proof.
  induction s as [| c s IH]; simpl; [reflexivity |].
  rewrite IH, orb_assoc. reflexivity.
Qed.

Lemma nul_in_pieces (s piece : string) :
  existsb has_nul (split_slash piece s) = has_nul piece || has_nul s.
Proof.
  revert piece. induction s as [| c s IH]; intros piece; cbn [split_slash].
  - cbn. rewrite !orb_false_r. reflexivity.
  - destruct (Ascii.eqb_spec c "/") as [-> | Hc].
    + cbn [existsb]. rewrite IH. reflexivity.
    + rewrite IH, has_nul_app. cbn [has_nul].
      rewrite orb_false_r, orb_assoc. reflexivity.
Qed.

Lemma dropped_piece_has_no_nul (piece : string) :
  is_component piece = false -> has_nul piece = false.
Proof.
  unfold is_component. intros H.
  apply negb_false_iff, orb_true_iff in H.
  destruct H as [H | H]; apply String.eqb_eq in H; subst piece; reflexivity.
Qed.

Lemma nul_in_components (pieces : list string) :
  existsb has_nul (List.filter is_component pieces) = existsb has_nul pieces.
Proof.
  induction pieces as [| piece rest IH]; [reflexivity |].
  cbn [List.filter existsb].
  destruct (is_component piece) eqn:Hpiece.
  - cbn [existsb]. rewrite IH. reflexivity.
  - rewrite IH, (dropped_piece_has_no_nul piece Hpiece). reflexivity.
Qed.

Lemma nul_in_parts (s : string) :
  existsb has_nul (parts (path_of_string s)) = has_nul s.
Proof.
  unfold path_of_string. cbn [parts].
  rewrite nul_in_components, nul_in_pieces. reflexivity.
Qed.

(** What [fs !! s] finds is where the path made of [s] leads. *)
Lemma lookup_locate (fs : tree) (s : string) (n : node) :
  fs !! s = Some n -> locate fs (path_of_string s) = inr n.
Proof.
  unfold lookup, tree_lookup.
  destruct (locate fs (path_of_string s)); congruence.
Qed.

(** Opening what a string without NUL names. *)
Lemma open_named (fs : tree) (s : string) (n : node) :
  is_path s = true ->
  fs !! s = Some n ->
  open_outcome fs (path_of_string s) =
    match n with
    | Regular true content => Ok content
    | Directory true _ _ => Raise (mk_exn IsADirectoryError "Is a directory")
    | _ => Raise (os_error EACCES)
    end.
Proof.
  unfold is_path. intros Hs Hn. apply negb_true_iff in Hs.
  unfold open_outcome. rewrite nul_in_parts, Hs, (lookup_locate _ _ _ Hn).
  destruct n as [[|] searchable entries | [|] content]; reflexivity.
Qed.

(** An open file is among the handles until it is closed. *)
Lemma open_read_acquires (p : path) (w w' : world) (file : handle) :
  open_read p w = (Ok file, w') ->
  (fd file ∈ handles w') /\ (fd file ∉ handles w)
  /\ handles (snd (close file w')) = handles w.
Proof.
  unfold open_read.
  destruct (open_outcome (files w) p) as [content | e]; [| discriminate].
  intros [= <- <-]. cbn.
  split; [apply elem_of_union_l, elem_of_singleton; reflexivity |].
  split; [apply is_fresh | apply fresh_handle_released].
Qed.

(** A failed [open] leaves the world as it was. *)
Lemma open_read_fails (p : path) (w w' : world) (e : exn) :
  open_read p w = (Raise e, w') -> w' = w.
Proof.
  unfold open_read.
  destruct (open_outcome (files w) p) as [content | e0]; [discriminate |].
  intros [= _ <-]. reflexivity.
Qed.

(** The guarded statement of [read_json_file] leaves the world as it found
    it, and fails or decodes by what the path leads to. *)
Lemma read_body_run (json_load : string -> result value) (p : string) (w : world) :
  read_body json_load (path_of_string p) w = (read_outcome json_load p (files w), w).
Proof.
  unfold read_body, with_open, bind, open_read, close, lift, read_outcome.
  destruct (open_outcome (files w) (path_of_string p)) as [content | e]; [| reflexivity].
  cbn [data fd files handles console errlog].
  rewrite fresh_handle_released. destruct w; reflexivity.
Qed.

Lemma read_json_file_run (json_load : string -> result value) (p : string) (w : world) :
  read_json_file json_load (VStr p) w =
    match read_outcome json_load p (files w) with
    | Ok v => (Ok v, w)
    | Raise e =>
        match select_clause (read_clauses (path_of_string p) (VDict [])) e with
        | Some c =>
            match snd c e w with
            | (Ok r, w') => (Ok r, w')
            | (Raise e', w') => (Raise e', w')
            end
        | None => (Raise e, w)
        end
    end.
Proof.
  unfold read_json_file, try_except, bind, lift, Path, ret.
  rewrite read_body_run.
  destruct (read_outcome json_load p (files w)) as [v | e]; [reflexivity |].
  destruct (select_clause _ e) as [c |]; [destruct (snd c e w) as [[r | e'] w'] |];
    reflexivity.
Qed.

(** What the call without its handlers comes to. *)
Lemma attempt_read (json_load : string -> result value) (p : string) (w : world) (e : exn) :
  fst (attempt json_load (ReadJsonFile (VStr p)) w) = Raise e ->
  read_outcome json_load p (files w) = Raise e.
Proof.
  unfold attempt, returning, bind, lift, Path, ret. rewrite read_body_run.
  destruct (read_outcome json_load p (files w)); cbn; congruence.
Qed.

(** A failure inside the [try] statement, by the class of the exception. *)
Lemma read_failure_by_class (json_load : string -> result value)
    (p : string) (e : exn) (w : world) :
  read_outcome json_load p (files w) = Raise e ->
  issubclass (exn_cls e) Exception = true ->
  exists m k,
    read_json_file json_load (VStr p) w = (Ok (VDict []), logged w [m])
    /\ category_of m = Some k
    /\ first_match (categories (ReadJsonFile (VStr p))) (exn_cls e) = Some k.
Proof.
  intros He Hc. rewrite read_json_file_run, He.
  by_exception_class e Hc;
    (do 2 eexists; split; [reflexivity | split; reflexivity]).
Qed.

(** C6, as amended. For every path for which the system reports that there
    is no such file or directory, [read_json_file] returns the empty mapping
    and logs one line, the one of the [FileNotFoundError] clause, which
    reports the resource-not-found category; nothing else in the world
    changes. *)
Theorem read_missing_file (json_load : string -> result value) (p : string) (w : world) :
  is_path p = true ->
  no_such_file (files w) p = true ->
  read_json_file json_load (VStr p) w
  = (Ok (VDict []), logged w [msg_file_not_found (path_of_string p)])
  /\ category_of (msg_file_not_found (path_of_string p)) = Some ResourceNotFound.
Proof.
  unfold is_path, no_such_file. intros Hp Hmissing. split; [| reflexivity].
  apply negb_true_iff in Hp.
  rewrite read_json_file_run. unfold read_outcome, open_outcome.
  rewrite nul_in_parts, Hp.
  destruct (locate (files w) (path_of_string p)) as [[| | |] | n];
    try discriminate Hmissing.
  reflexivity.
Qed.

Lemma read_missing_file_witness :
  is_path "nonexistent.json" = true
  /\ no_such_file (files sample_world) "nonexistent.json" = true
  /\ read_json_file sample_json_load (VStr "nonexistent.json") sample_world
     = (Ok (VDict []),
        logged sample_world [msg_file_not_found (path_of_string "nonexistent.json")]).
Proof.
  split; [reflexivity |]. split; [vm_compute; reflexivity |].
  apply (read_missing_file sample_json_load "nonexistent.json" sample_world);
    vm_compute; reflexivity.
Defined.

(** C6, counterexample. [list.json/x] names no file: [list.json] is a file,
    not a directory.  The system reports that, not a missing file, and the
    [NotADirectoryError] falls to the catch-all clause: the line logged
    reports an unexpected error, not a resource that was not found. *)
Lemma read_under_a_file_counterexample :
  is_path "list.json/x" = true
  /\ files sample_world !! "list.json/x" = None
  /\ read_json_file sample_json_load (VStr "list.json/x") sample_world
     = (Ok (VDict []),
        logged sample_world
          [msg_unexpected_error (path_of_string "list.json/x")
             (mk_exn NotADirectoryError "Not a directory")])
  /\ category_of (msg_unexpected_error (path_of_string "list.json/x")
                    (mk_exn NotADirectoryError "Not a directory"))
     = Some UnexpectedError
  /\ read_json_file sample_json_load (VStr "list.json/x") sample_world
     <> (Ok (VDict []),
         logged sample_world [msg_file_not_found (path_of_string "list.json/x")]).
Proof.
  split; [reflexivity |]. split; [vm_compute; reflexivity |].
  split; [vm_compute; reflexivity |]. split; [reflexivity |].
  vm_compute. discriminate.
Qed.

(** The [with] statement gives back every handle its body gives back. *)
Lemma with_open_releases {A} (p : path) (body : handle -> M A) (w : world) :
  (forall file w1, handles (snd (body file w1)) = handles w1) ->
  handles (snd (with_open p body w)) = handles w.
Proof.
  intros Hbody. unfold with_open, bind.
  destruct (open_read p w) as [[file | e] w1] eqn:Hopen.
  - pose proof (Hbody file w1) as Hb.
    destruct (body file w1) as [r w2]. cbn in Hb |- *.
    destruct (open_read_acquires _ _ _ _ Hopen) as (_ & _ & Hclose).
    cbn in Hclose. rewrite Hb. exact Hclose.
  - rewrite (open_read_fails _ _ _ _ Hopen). reflexivity.
Qed.

(** C8. [read_json_file] leaves no handle open: on every input and every
    exit path, by return or by exception, the open handles after the call
    are those before it.  The handle is taken by the [with] statement and
    closed where the statement is left. *)
Theorem read_json_file_releases (json_load : string -> result value)
    (file_path : value) (w : world) :
  handles (snd (read_json_file json_load file_path w)) = handles w.
Proof.
  destruct file_path as [| | | | p | | |]; try reflexivity.
  rewrite read_json_file_run.
  destruct (read_outcome json_load p (files w)) as [v | [c t]]; [reflexivity |].
  destruct c; reflexivity.
Qed.

(** C9. A file whose content decodes to a value that is not a mapping:
    [read_json_file] returns that value as it is, logs nothing and leaves
    the world as it was; what it returns is then not a mapping. *)
Theorem read_non_object_document (json_load : string -> result value)
    (p content : string) (v : value) (w : world) :
  is_path p = true ->
  files w !! p = Some (Regular true content) ->
  json_load content = Ok v ->
  is_dict v = false ->
  read_json_file json_load (VStr p) w = (Ok v, w)
  /\ is_dict v = false
  /\ v <> VDict [].
Proof.
  intros Hp Hfile Hdecode Hv.
  split; [| split; [exact Hv | intros ->; discriminate Hv]].
  rewrite read_json_file_run. unfold read_outcome.
  rewrite (open_named _ _ _ Hp Hfile), Hdecode. reflexivity.
Qed.

Lemma read_non_object_document_witness :
  is_path "list.json" = true
  /\ files sample_world !! "list.json" = Some (Regular true "[]")
  /\ sample_json_load "[]" = Ok (VList [])
  /\ is_dict (VList []) = false
  /\ read_json_file sample_json_load (VStr "list.json") sample_world
     = (Ok (VList []), sample_world).
Proof.
  split; [reflexivity |]. split; [vm_compute; reflexivity |].
  split; [reflexivity |]. split; [reflexivity |].
  apply (read_non_object_document sample_json_load "list.json" "[]" (VList []) sample_world);
    vm_compute; reflexivity.
Defined.

(** ** [parse_color] *)

Lemma clamp_int (n : Z) : clamp (VInt n) = Ok (VInt (clamp_channel n)).
Proof.
  unfold clamp, min_int, max_int, lt_int, gt_int, compare_int, is_cmp, clamp_channel.
  destruct (Z.compare_spec n 255) as [-> | Hlt | Hgt]; cbn.
  - reflexivity.
  - destruct (Z.compare_spec n 0) as [-> | Hneg | Hpos]; cbn; do 2 f_equal; lia.
  - do 2 f_equal. lia.
Qed.

(** The suite of the [try] statement of [parse_color] has no effect on the
    world. *)
Lemma parse_color_body_pure (color : value) :
  exists r, forall w, parse_color_body color w = (r, w).
Proof.
  unfold parse_color_body, hex_channel, bind, lift, raise, ret.
  destruct color as [| | | | s | items | |]; try (eexists; intros w; reflexivity).
  - destruct (COLOR_NAMES !! lower (lstrip "#" s)) as [[[r g] b] |];
      [eexists; intros w; reflexivity |].
    destruct (String.length (lower (lstrip "#" s)) =? 6)%nat;
      [| eexists; intros w; reflexivity].
    destruct (int_base16 (slice 0 2 (lower (lstrip "#" s))));
      [| eexists; intros w; reflexivity].
    destruct (int_base16 (slice 2 4 (lower (lstrip "#" s))));
      [| eexists; intros w; reflexivity].
    destruct (int_base16 (slice 4 6 (lower (lstrip "#" s))));
      eexists; intros w; reflexivity.
  - destruct (List.length items =? 3)%nat; [| eexists; intros w; reflexivity].
    destruct (clamp_all items) as [[| r [| g [| b [| x xs]]]] | e];
      eexists; intros w; reflexivity.
Qed.

(** What [parse_color] makes of the outcome of its suite. *)
Lemma parse_color_run (color : value) (w : world) :
  parse_color color w =
    match fst (parse_color_body color w) with
    | Ok rgb => (Ok rgb, w)
    | Raise e => if issubclass (exn_cls e) Exception then (Ok black, w) else (Raise e, w)
    end.
Proof.
  destruct (parse_color_body_pure color) as [r Hr].
  unfold parse_color, try_except, select_clause. rewrite Hr. cbn [fst find].
  destruct r as [rgb | e]; [reflexivity |].
  destruct (issubclass (exn_cls e) Exception); reflexivity.
Qed.

(** C7. The examples of [parse_color]: ["#FF0000"] is (255, 0, 0), ["blue"]
    is (0, 0, 255), ["not a color"] is (0, 0, 0); and a tuple of three
    integers gives each channel clamped into 0..255, so (300, -5, 10) gives
    (255, 0, 10); out-of-range channels are no failure.  The world is left
    as it was. *)
Theorem parse_color_examples_and_clamp (w : world) :
  parse_color (VStr "#FF0000") w = (Ok (mkRGB (VInt 255) (VInt 0) (VInt 0)), w)
  /\ parse_color (VStr "blue") w = (Ok (mkRGB (VInt 0) (VInt 0) (VInt 255)), w)
  /\ parse_color (VStr "not a color") w = (Ok (mkRGB (VInt 0) (VInt 0) (VInt 0)), w)
  /\ parse_color (VTuple [VInt 300; VInt (-5); VInt 10]) w
     = (Ok (mkRGB (VInt 255) (VInt 0) (VInt 10)), w)
  /\ (forall r g b : Z,
        parse_color (VTuple [VInt r; VInt g; VInt b]) w
        = (Ok (mkRGB (VInt (clamp_channel r)) (VInt (clamp_channel g))
                     (VInt (clamp_channel b))), w)
        /\ fst (parse_color_body (VTuple [VInt r; VInt g; VInt b]) w)
           = Ok (mkRGB (VInt (clamp_channel r)) (VInt (clamp_channel g))
                       (VInt (clamp_channel b)))).
Proof.
  assert (Htuple : forall r g b : Z,
            parse_color_body (VTuple [VInt r; VInt g; VInt b]) w
            = (Ok (mkRGB (VInt (clamp_channel r)) (VInt (clamp_channel g))
                         (VInt (clamp_channel b))), w)).
  { intros r g b. unfold parse_color_body, bind, lift, raise, ret.
    cbn [List.length Nat.eqb clamp_all]. rewrite !clamp_int. reflexivity. }
  split; [vm_compute; reflexivity |].
  split; [vm_compute; reflexivity |].
  split; [vm_compute; reflexivity |].
  split.
  - rewrite parse_color_run, Htuple. reflexivity.
  - intros r g b. rewrite parse_color_run, Htuple. split; reflexivity.
Qed.

(** C10, at the failing input. [parse_color("-f0000")]: the string has six
    characters and is no color name, and [int("-f", 16)] is -15; the red
    channel returned is below 0. *)
Theorem parse_color_signed_hex (w : world) :
  parse_color (VStr "-f0000") w = (Ok (mkRGB (VInt (-15)) (VInt 0) (VInt 0)), w)
  /\ rgb_in_range (mkRGB (VInt (-15)) (VInt 0) (VInt 0)) = false.
Proof. split; [vm_compute; reflexivity | reflexivity]. Qed.

(** The other sources of a color stay in range: the table of names, the
    clamped channels of a tuple, and black. *)
Lemma color_names_in_range (name : string) (r g b : Z) :
  COLOR_NAMES !! name = Some (r, g, b) ->
  rgb_in_range (mkRGB (VInt r) (VInt g) (VInt b)) = true.
Proof.
  intros H. unfold COLOR_NAMES in H. apply elem_of_list_to_map_2 in H.
  repeat (apply elem_of_cons in H; destruct H as [[= -> -> -> ->] | H];
          [reflexivity |]).
  apply elem_of_nil in H. contradiction.
Qed.

Lemma clamp_in_range (c x : value) :
  clamp c = Ok x -> channel_in_range x = true.
Proof.
  destruct c as [| b | n | f | | | |]; try discriminate.
  - destruct b; intros [= <-]; reflexivity.
  - rewrite clamp_int. intros [= <-]. unfold channel_in_range, clamp_channel.
    apply andb_true_iff; split; apply Z.leb_le; lia.
  - unfold clamp, min_int, max_int, lt_int, gt_int, compare_int, channel_in_range.
    destruct (float_compare_int f 255) as [[| |] |] eqn:H255; cbn;
      try (intros [= <-]; reflexivity).
    destruct (float_compare_int f 0) as [[| |] |] eqn:H0; cbn;
      intros [= <-]; cbn; rewrite ?H0, ?H255; reflexivity.
Qed.

(** Only an object that is not a number fails to be clamped. *)
Lemma clamp_raises (c : value) (e : exn) :
  clamp c = Raise e -> exn_cls e = TypeError.
Proof.
  destruct c as [| b | n | f | | | |]; try (intros [= <-]; reflexivity).
  - destruct b; discriminate.
  - rewrite clamp_int. discriminate.
  - unfold clamp, min_int, max_int, lt_int, gt_int, compare_int.
    destruct (float_compare_int f 255) as [[| |] |]; cbn;
      destruct (float_compare_int f 0) as [[| |] |]; cbn; discriminate.
Qed.

Lemma clamp_all_in_range (items xs : list value) :
  clamp_all items = Ok xs -> Forall (fun x => channel_in_range x = true) xs.
Proof.
  revert xs. induction items as [| c rest IH]; intros xs; cbn [clamp_all].
  - intros [= <-]. constructor.
  - destruct (clamp c) as [x | e] eqn:Hc; [| discriminate].
    destruct (clamp_all rest) as [ys | e]; [| discriminate].
    intros [= <-]. constructor; [eapply clamp_in_range, Hc | apply IH; reflexivity].
Qed.

(** What is not a string never gives a channel out of range. *)
Lemma parse_color_in_range_unless_str (color : value) (w : world) (rgb : RGB) :
  (forall text, color <> VStr text) ->
  fst (parse_color color w) = Ok rgb -> rgb_in_range rgb = true.
Proof.
  intros Hns. rewrite parse_color_run.
  assert (Hblack : forall e, fst (if issubclass (exn_cls e) Exception
                                  then (Ok black, w) else (@Raise RGB e, w)) = Ok rgb ->
                             rgb_in_range rgb = true).
  { intros e. destruct (issubclass (exn_cls e) Exception); [| discriminate].
    intros [= <-]. reflexivity. }
  unfold parse_color_body, bind, lift, raise, ret.
  destruct color as [| | | | s | items | |]; try (cbn [fst]; apply Hblack).
  - now contradiction (Hns s).
  - destruct (List.length items =? 3)%nat; [| cbn [fst]; apply Hblack].
    destruct (clamp_all items) as [xs | e] eqn:Hx; [| cbn [fst]; apply Hblack].
    pose proof (clamp_all_in_range _ _ Hx) as Hall.
    destruct xs as [| r [| g [| b [| x xs]]]]; try (cbn [fst]; apply Hblack).
    cbn [fst]. intros [= <-].
    inversion Hall as [| ? ? Hr Hall1]; subst.
    inversion Hall1 as [| ? ? Hg Hall2]; subst.
    inversion Hall2 as [| ? ? Hb _]; subst.
    unfold rgb_in_range; cbn. rewrite Hr, Hg, Hb. reflexivity.
Qed.

(** The suite of [parse_color] raises only [ValueError] and [TypeError]. *)
Lemma int_base16_raises (t : string) (e : exn) :
  int_base16 t = Raise e -> exn_cls e = ValueError.
Proof.
  unfold int_base16.
  destruct (strip_sign (skip_spaces t)) as [neg s1].
  destruct (starts_with_underscore (strip_prefix s1)); [intros [= <-]; reflexivity |].
  destruct (scan_digits (strip_prefix s1) false 0) as [[k rest] |];
    [| intros [= <-]; reflexivity].
  destruct (String.length rest =? String.length (strip_prefix s1))%nat;
    [intros [= <-]; reflexivity |].
  destruct (skip_spaces rest); [discriminate | intros [= <-]; reflexivity].
Qed.

Lemma clamp_all_raises (items : list value) (e : exn) :
  clamp_all items = Raise e -> exn_cls e = TypeError.
Proof.
  induction items as [| c rest IH]; cbn [clamp_all]; [discriminate |].
  destruct (clamp c) as [x | e0] eqn:Hc.
  - destruct (clamp_all rest) as [ys | e1]; [discriminate |].
    intros [= <-]. apply IH. reflexivity.
  - intros [= <-]. eapply clamp_raises, Hc.
Qed.

Lemma parse_color_body_raises (color : value) (w : world) (e : exn) :
  fst (parse_color_body color w) = Raise e ->
  exn_cls e = ValueError \/ exn_cls e = TypeError.
Proof.
  unfold parse_color_body, hex_channel, bind, lift, raise, ret.
  destruct color as [| | | | s | items | |];
    try (intros [= <-]; left; reflexivity).
  - destruct (COLOR_NAMES !! lower (lstrip "#" s)) as [[[r g] b] |]; [discriminate |].
    destruct (String.length (lower (lstrip "#" s)) =? 6)%nat;
      [| intros [= <-]; left; reflexivity].
    destruct (int_base16 (slice 0 2 _)) as [n1 | e1] eqn:H1;
      [| intros [= <-]; left; eapply int_base16_raises, H1].
    destruct (int_base16 (slice 2 4 _)) as [n2 | e2] eqn:H2;
      [| intros [= <-]; left; eapply int_base16_raises, H2].
    destruct (int_base16 (slice 4 6 _)) as [n3 | e3] eqn:H3;
      [discriminate | intros [= <-]; left; eapply int_base16_raises, H3].
  - destruct (List.length items =? 3)%nat; [| intros [= <-]; left; reflexivity].
    destruct (clamp_all items) as [xs | e'] eqn:Hx.
    + destruct xs as [| r [| g [| b [| x xs]]]];
        first [discriminate | intros [= <-]; left; reflexivity].
    + intros [= <-]. right. eapply clamp_all_raises, Hx.
Qed.

(** [parse_color] returns a color on every input and leaves the world as
    it was; when its suite raised, the color is black. *)
Lemma parse_color_returns (color : value) (w : world) :
  exists rgb,
    parse_color color w = (Ok rgb, w)
    /\ (is_Raise (fst (parse_color_body color w)) = true -> rgb = black).
Proof.
  rewrite parse_color_run.
  destruct (fst (parse_color_body color w)) as [rgb | e] eqn:Hbody.
  - exists rgb. split; [reflexivity | discriminate].
  - exists black. split; [| reflexivity].
    destruct (parse_color_body_raises color w e Hbody) as [-> | ->]; reflexivity.
Qed.

(** ** Failures and their categories *)

Lemma new_messages_written (c : call) (w : world) (lines : list message) :
  new_messages w (written c w lines) = lines.
Proof.
  destruct c; [apply new_messages_printed | apply new_messages_logged ..].
Qed.

(** C1, as amended. A call that gets to its [try] statement and fails
    there with an exception under [Exception] selects exactly one category,
    that of the first clause in source order whose class the exception is
    an instance of, the clauses standing from the most specific to the
    catch-all; when the clause can write its line, the call returns its
    default value.  [divide] and [read_json_file] then write exactly one
    line, on the console and in the log, and the line reports that
    category; nothing else in the world changes.  [parse_color] writes
    nothing and leaves the world as it was. *)
Theorem failure_selects_first_matching_clause
    (py : interpreter) (json_load : string -> result value)
    (c : call) (w : world) (e : exn) :
  reaches_try c = true ->
  fst (attempt json_load c w) = Raise e ->
  issubclass (exn_cls e) Exception = true ->
  line_can_be_written py c e = true ->
  specific_first (map fst (categories c)) = true
  /\ exists k,
       first_match (categories c) (exn_cls e) = Some k
       /\ fst (run py json_load c w) = Ok (default_answer c)
       /\ if writes_diagnostics c
          then exists m,
                 snd (run py json_load c w) = written c w [m]
                 /\ new_messages w (snd (run py json_load c w)) = [m]
                 /\ category_of m = Some k
          else snd (run py json_load c w) = w.
Proof.
  intros Htry Hfail Hexn Hline. split; [apply taxonomies_specific_first |].
  destruct c as [a b | p | color].
  - (* divide *)
    assert (Hdiv : truediv a b = Raise e).
    { revert Hfail. unfold attempt, returning, divide_body, bind, lift.
      destruct (truediv a b); cbn; congruence. }
    destruct (divide_failure_by_class py a b e w Hdiv Hexn Hline)
      as (m & k & Hrun & Hm & Hk).
    exists k. split; [exact Hk |].
    unfold run, returning, bind. rewrite Hrun. cbn [fst snd ret writes_diagnostics].
    split; [reflexivity |]. exists m. split; [reflexivity |].
    split; [apply new_messages_printed | exact Hm].
  - (* read_json_file *)
    destruct p as [| | | | s | | |]; try discriminate Htry.
    pose proof (attempt_read json_load s w e Hfail) as Hbody.
    destruct (read_failure_by_class json_load s e w Hbody Hexn) as (m & k & Hrun & Hm & Hk).
    exists k. split; [exact Hk |].
    unfold run, returning, bind. rewrite Hrun. cbn [fst snd ret writes_diagnostics].
    split; [reflexivity |]. exists m. split; [reflexivity |].
    split; [apply new_messages_logged | exact Hm].
  - (* parse_color *)
    assert (Hbody : fst (parse_color_body color w) = Raise e).
    { revert Hfail. unfold attempt, returning, bind.
      destruct (parse_color_body color w) as [[rgb | e'] w']; cbn; congruence. }
    exists UnexpectedError. split.
    { unfold first_match, categories, find. cbn [fst snd]. rewrite Hexn. reflexivity. }
    unfold run, returning, bind. rewrite parse_color_run, Hbody, Hexn.
    cbn [fst snd ret writes_diagnostics default_answer]. split; reflexivity.
Qed.

Lemma failure_selects_first_matching_clause_witness :
  reaches_try (Divide (VInt 10) VNone) = true
  /\ fst (attempt sample_json_load (Divide (VInt 10) VNone) empty_world)
     = Raise unsupported_operands
  /\ issubclass (exn_cls unsupported_operands) Exception = true
  /\ line_can_be_written notebook_kernel (Divide (VInt 10) VNone) unsupported_operands = true
  /\ exists k,
       first_match (categories (Divide (VInt 10) VNone)) (exn_cls unsupported_operands)
       = Some k
       /\ fst (run notebook_kernel sample_json_load (Divide (VInt 10) VNone) empty_world)
          = Ok (Value (VInt 0))
       /\ exists m,
            snd (run notebook_kernel sample_json_load (Divide (VInt 10) VNone) empty_world)
            = printed empty_world [m]
            /\ new_messages empty_world
                 (snd (run notebook_kernel sample_json_load (Divide (VInt 10) VNone)
                         empty_world))
               = [m]
            /\ category_of m = Some k.
Proof.
  split; [reflexivity |]. split; [reflexivity |]. split; [reflexivity |].
  split; [reflexivity |].
  apply (failure_selects_first_matching_clause notebook_kernel sample_json_load
           (Divide (VInt 10) VNone) empty_world unsupported_operands);
    reflexivity.
Defined.

(** C1, counterexample. [parse_color("not a color")] fails in its [try]
    statement with a [ValueError]; the call writes no line at all, so it
    does not report exactly one category. *)
Lemma parse_color_silent_counterexample :
  fst (attempt sample_json_load (ParseColor (VStr "not a color")) empty_world)
  = Raise invalid_color_format
  /\ new_messages empty_world
       (snd (run notebook_kernel sample_json_load (ParseColor (VStr "not a color"))
               empty_world)) = []
  /\ ~ reports_one_category notebook_kernel sample_json_load
         (ParseColor (VStr "not a color")) empty_world invalid_color_format
  /\ ~ one_category_per_failure notebook_kernel sample_json_load.
Proof.
  assert (Hfail : fst (attempt sample_json_load (ParseColor (VStr "not a color")) empty_world)
                  = Raise invalid_color_format) by (vm_compute; reflexivity).
  assert (Hnone : new_messages empty_world
            (snd (run notebook_kernel sample_json_load (ParseColor (VStr "not a color"))
                    empty_world)) = [])
    by (vm_compute; reflexivity).
  assert (Hnot : ~ reports_one_category notebook_kernel sample_json_load
                     (ParseColor (VStr "not a color")) empty_world invalid_color_format).
  { intros (m & k & Hone & _). rewrite Hnone in Hone. discriminate Hone. }
  split; [exact Hfail |]. split; [exact Hnone |]. split; [exact Hnot |].
  intros Hall. exact (Hnot (Hall _ _ _ Hfail)).
Qed.

(** ** No exception reaches the caller *)

Lemma sample_json_load_raises_exceptions_only :
  raises_exceptions_only sample_json_load.
Proof.
  intros content e. unfold sample_json_load.
  repeat (match goal with |- context [if ?c then _ else _] => destruct c end;
          [discriminate |]).
  intros [= <-]. reflexivity.
Qed.

(** [open] raises only exceptions under [Exception]. *)
Lemma open_outcome_raises (fs : tree) (p : path) (e : exn) :
  open_outcome fs p = Raise e -> issubclass (exn_cls e) Exception = true.
Proof.
  unfold open_outcome.
  destruct (existsb has_nul (parts p)); [intros [= <-]; reflexivity |].
  destruct (locate fs p) as [[| | |] | [[|] searchable entries | [|] content]];
    first [discriminate | intros [= <-]; reflexivity].
Qed.

Lemma read_outcome_raises (json_load : string -> result value) (p : string)
    (fs : tree) (e : exn) :
  raises_exceptions_only json_load ->
  read_outcome json_load p fs = Raise e ->
  issubclass (exn_cls e) Exception = true.
Proof.
  intros Hjson. unfold read_outcome.
  destruct (open_outcome fs (path_of_string p)) as [content | e0] eqn:Hopen.
  - apply Hjson.
  - intros [= <-]. eapply open_outcome_raises, Hopen.
Qed.

(** C2, as amended. [divide] on operands that are numbers or whose second
    one can be rendered, [parse_color] on every input, ill-typed or not, and
    [read_json_file] on every string path (with a decoder whose exceptions
    derive from [Exception]) return to the caller; when the operation
    failed, what they return is the default value, of the declared type: a
    number that is not [None], the empty mapping, the color black. *)
Theorem utilities_return (py : interpreter) (json_load : string -> result value)
    (c : call) (w : world) :
  reaches_try c = true ->
  raises_exceptions_only json_load ->
  divisor_can_be_named py c = true ->
  exists ans w',
    run py json_load c w = (Ok ans, w')
    /\ (is_Raise (fst (attempt json_load c w)) = true ->
        ans = default_answer c /\ matches_declared_type c ans = true).
Proof.
  intros Htry Hjson Hnamed. destruct c as [a b | p | color].
  - (* divide *)
    unfold run, attempt, returning, bind, divide_body, lift.
    destruct (truediv a b) as [q | e] eqn:Hq.
    + rewrite (divide_on_success _ _ _ _ _ Hq). do 2 eexists.
      split; [reflexivity | discriminate].
    + destruct (divide_failure_by_class py a b e w Hq) as (m & k & Hrun & _).
      { apply raised_by_division_is_caught, (truediv_raises a b), Hq. }
      { apply named_divisor_writes; assumption. }
      rewrite Hrun. do 2 eexists. split; [reflexivity |]. intros _. split; reflexivity.
  - (* read_json_file *)
    destruct p as [| | | | s | | |]; try discriminate Htry.
    unfold run, attempt, returning, bind, lift, Path.
    rewrite read_body_run, read_json_file_run.
    destruct (read_outcome json_load s (files w)) as [v | e] eqn:Hbody.
    + do 2 eexists. split; [reflexivity | discriminate].
    + destruct (read_failure_by_class json_load s e w Hbody) as (m & k & Hrun & _).
      { eapply read_outcome_raises; eassumption. }
      rewrite read_json_file_run, Hbody in Hrun.
      rewrite Hrun. do 2 eexists. split; [reflexivity |]. intros _. split; reflexivity.
  - (* parse_color *)
    destruct (parse_color_returns color w) as (rgb & Hrun & Hblack).
    unfold run, attempt, returning, bind. rewrite Hrun.
    do 2 eexists. split; [reflexivity |].
    destruct (parse_color_body color w) as [[rgb' | e] w1]; [discriminate |].
    intros _. rewrite Hblack by reflexivity. split; reflexivity.
Qed.

Lemma utilities_return_witness :
  reaches_try (Divide VNone (VInt 2)) = true
  /\ raises_exceptions_only sample_json_load
  /\ divisor_can_be_named notebook_kernel (Divide VNone (VInt 2)) = true
  /\ exists ans w',
       run notebook_kernel sample_json_load (Divide VNone (VInt 2)) empty_world = (Ok ans, w')
       /\ (is_Raise (fst (attempt sample_json_load (Divide VNone (VInt 2)) empty_world))
           = true ->
           ans = Value (VInt 0)
           /\ matches_declared_type (Divide VNone (VInt 2)) ans = true).
Proof.
  split; [reflexivity |].
  split; [exact sample_json_load_raises_exceptions_only |].
  split; [vm_compute; reflexivity |].
  apply (utilities_return notebook_kernel sample_json_load (Divide VNone (VInt 2))
           empty_world);
    [reflexivity | exact sample_json_load_raises_exceptions_only | vm_compute; reflexivity].
Defined.

(** C2, counterexample. [read_json_file(None)]: the conversion
    [Path(file_path)] stands before the [try] statement, so its [TypeError]
    reaches the caller; nothing is logged. *)
Lemma read_json_file_none_counterexample :
  read_json_file sample_json_load VNone empty_world
  = (Raise (mk_exn TypeError "expected str, bytes or os.PathLike object"), empty_world)
  /\ ~ never_propagates notebook_kernel sample_json_load.
Proof.
  split; [reflexivity |].
  intros Hall. destruct (Hall (ReadJsonFile VNone) empty_world) as (ans & w' & Hrun).
  discriminate Hrun.
Qed.

(** A divisor that is zero in any numeric type: the same outcome as for the
    integer 0, as long as [a] itself converts to a float. *)
Lemma divide_by_any_zero (py : interpreter) (a b : value) (w : world) :
  is_number a = true -> is_number b = true -> is_zero b = true ->
  (forall e, as_float a <> Some (Raise e)) ->
  divide py a b w = (Ok (VInt 0), printed w [msg_division_by_zero]).
Proof.
  intros Ha Hb Hz Hconv.
  assert (He : exists e, truediv a b = Raise e /\ exn_cls e = ZeroDivisionError).
  { unfold truediv.
    destruct b as [| bb | nb | fb | | | |]; try discriminate; cbn in Hz.
    - destruct bb; [discriminate |].
      destruct a as [| ba | na | fa | | | |]; try discriminate;
        cbn [as_int as_float int_of_bool].
      + eexists; split; reflexivity.
      + eexists; split; reflexivity.
      + eexists; split; reflexivity.
    - apply Z.eqb_eq in Hz. subst nb.
      destruct a as [| ba | na | fa | | | |]; try discriminate;
        cbn [as_int as_float int_of_bool].
      + eexists; split; reflexivity.
      + eexists; split; reflexivity.
      + eexists; split; reflexivity.
    - destruct fb; try discriminate.
      destruct a as [| ba | na | fa | | | |]; try discriminate;
        cbn [as_int as_float].
      + destruct (float_of_bool ba) as [f Hf]. rewrite Hf. eexists; split; reflexivity.
      + destruct (float_of_int na) as [f | e] eqn:Hf.
        * eexists; split; reflexivity.
        * exfalso. apply (Hconv e). cbn. rewrite Hf. reflexivity.
      + eexists; split; reflexivity. }
  destruct He as ([c t] & He & Hc). cbn in Hc. subst c.
  rewrite (divide_on_failure _ _ _ _ _ He). reflexivity.
Qed.

(** * Further properties *)

(** ** [divide], beyond the zero and the non-number divisor *)

(** A divisor that cannot be named: the rendering raises in the second
    clause, and its exception leaves [divide]. *)
Lemma divide_unnamed_divisor (py : interpreter) (a b : value) (w : world) :
  divisor_can_be_named py (Divide a b) = false ->
  exists e, format_field py b = Raise e /\ divide py a b w = (Raise e, w).
Proof.
  unfold divisor_can_be_named, is_Ok. intros Hnamed.
  apply orb_false_iff in Hnamed as [Hnum Hrender].
  rewrite (divide_type_error py a b _ w (truediv_not_numbers a b Hnum) eq_refl).
  destruct (format_field py b) as [[] | e]; [discriminate Hrender |].
  exists e. split; reflexivity.
Qed.

(** X1. Every call of [divide] with two numbers, or with a second operand
    that can be rendered, returns a number and prints exactly one line; the
    log, the files and the open handles stay as they were.  Every other
    call is left by the exception the rendering of the second operand
    raises, and has printed nothing. *)
Theorem divide_prints_one_line (py : interpreter) (a b : value) (w : world) :
  if divisor_can_be_named py (Divide a b)
  then exists v m, divide py a b w = (Ok v, printed w [m]) /\ is_number v = true
  else exists e, format_field py b = Raise e /\ divide py a b w = (Raise e, w).
Proof.
  destruct (divisor_can_be_named py (Divide a b)) eqn:Hnamed.
  - destruct (truediv a b) as [q | e] eqn:Hq.
    + exists (VFloat q), msg_no_errors.
      split; [apply divide_on_success, Hq | reflexivity].
    + destruct (divide_failure_by_class py a b e w Hq) as (m & k & Hrun & _).
      { apply raised_by_division_is_caught, (truediv_raises a b), Hq. }
      { apply named_divisor_writes; assumption. }
      exists (VInt 0), m. split; [exact Hrun | reflexivity].
  - apply divide_unnamed_divisor, Hnamed.
Qed.

(** X2. Two floats never overflow into a failure: with a divisor other
    than zero, [divide] returns the IEEE quotient, be it an infinity or a
    NaN, and prints [No errors]. *)
Theorem divide_floats (py : interpreter) (x y : spec_float) (w : world) :
  float_is_zero y = false ->
  divide py (VFloat x) (VFloat y) w
  = (Ok (VFloat (SFdiv Py.prec Py.emax x y)), printed w [msg_no_errors]).
Proof.
  intros Hy. apply divide_on_success.
  unfold truediv; cbn [as_int as_float]. apply float_true_divide_nonzero, Hy.
Qed.

Lemma divide_floats_witness :
  float_is_zero (S754_finite false 1 (-1074)) = false
  /\ divide notebook_kernel (VFloat (S754_finite false 9007199254740991 971))
            (VFloat (S754_finite false 1 (-1074))) empty_world
     = (Ok (VFloat (S754_infinity false)), printed empty_world [msg_no_errors]).
Proof.
  split; [reflexivity |].
  apply (divide_floats notebook_kernel (S754_finite false 9007199254740991 971)
                       (S754_finite false 1 (-1074)) empty_world).
  reflexivity.
Defined.

(** X3. An [int] too large for a float, divided by a float: the conversion
    of the dividend fails before the divisor is looked at, so even a zero
    divisor gives the line of the catch-all clause, not the one of the
    division by zero. *)
Theorem divide_overflow_before_zero (py : interpreter) (n : Z) (y : spec_float)
    (e : exn) (w : world) :
  float_of_int n = Raise e ->
  divide py (VInt n) (VFloat y) w = (Ok (VInt 0), printed w [msg_error_occurred e])
  /\ category_of (msg_error_occurred e) = Some UnexpectedError.
Proof.
  intros Hn. split; [| reflexivity].
  assert (Hdiv : truediv (VInt n) (VFloat y) = Raise e).
  { unfold truediv; cbn [as_int as_float]. rewrite Hn. reflexivity. }
  rewrite (divide_on_failure _ _ _ _ _ Hdiv).
  pose proof (float_of_int_raises n e Hn) as Hc.
  destruct e as [c t]. cbn [exn_cls] in Hc. subst c. reflexivity.
Qed.

Lemma divide_overflow_before_zero_witness :
  float_of_int (10 ^ 400) = Raise (mk_exn OverflowError "int too large to convert to float")
  /\ divide notebook_kernel (VInt (10 ^ 400)) (VFloat (S754_zero false)) empty_world
     = (Ok (VInt 0),
        printed empty_world
          [msg_error_occurred (mk_exn OverflowError "int too large to convert to float")]).
Proof.
  split; [vm_compute; reflexivity |].
  apply (divide_overflow_before_zero notebook_kernel (10 ^ 400) (S754_zero false)
           (mk_exn OverflowError "int too large to convert to float") empty_world).
  vm_compute; reflexivity.
Defined.

(** X4. A divisor that is zero in any numeric type, [False], [0], [0.0] or
    [-0.0]: whenever the dividend converts to a float, [divide] returns 0
    and prints the line of the division by zero. *)
Theorem divide_by_zero_of_any_type (py : interpreter) (a b : value) (w : world) :
  is_number a = true -> is_number b = true -> is_zero b = true ->
  (forall e, as_float a <> Some (Raise e)) ->
  divide py a b w = (Ok (VInt 0), printed w [msg_division_by_zero])
  /\ category_of msg_division_by_zero = Some DivideByZero.
Proof.
  intros Ha Hb Hz Hconv. split; [| reflexivity].
  apply divide_by_any_zero; assumption.
Qed.

Lemma divide_by_zero_of_any_type_witness :
  is_number (VFloat S754_nan) = true
  /\ is_number (VFloat (S754_zero true)) = true
  /\ is_zero (VFloat (S754_zero true)) = true
  /\ (forall e, as_float (VFloat S754_nan) <> Some (Raise e))
  /\ divide notebook_kernel (VFloat S754_nan) (VFloat (S754_zero true)) empty_world
     = (Ok (VInt 0), printed empty_world [msg_division_by_zero]).
Proof.
  split; [reflexivity |]. split; [reflexivity |]. split; [reflexivity |].
  split; [intros e; discriminate |].
  apply (divide_by_zero_of_any_type notebook_kernel (VFloat S754_nan)
           (VFloat (S754_zero true)) empty_world);
    first [reflexivity | intros e; discriminate].
Defined.

(** X25. For every second operand [b] that is not a number, such as
    [None], and that [format] can render, and for every [a], [divide(a, b)]
    returns 0 and prints one line, the one of the [TypeError] clause naming
    [b], which reports the type-mismatch category; nothing else in the
    world changes. *)
Theorem divide_by_non_number (py : interpreter) (a b : value) (w : world) :
  is_number b = false ->
  format_field py b = Ok tt ->
  divide py a b w = (Ok (VInt 0), printed w [msg_division_by b])
  /\ category_of (msg_division_by b) = Some TypeMismatch.
Proof.
  intros Hb Hrender. split; [| reflexivity].
  rewrite (divide_type_error py a b _ w (truediv_not_a_number a b Hb) eq_refl), Hrender.
  reflexivity.
Qed.

Lemma divide_by_non_number_witness :
  is_number VNone = false
  /\ format_field notebook_kernel VNone = Ok tt
  /\ divide notebook_kernel (VInt 10) VNone empty_world
     = (Ok (VInt 0), printed empty_world [msg_division_by VNone]).
Proof.
  split; [reflexivity |]. split; [reflexivity |].
  apply (divide_by_non_number notebook_kernel (VInt 10) VNone empty_world); reflexivity.
Defined.

(** ** The earlier versions of [divide] *)

(** X5. The first [divide] is silent and never raises; it returns [None]
    exactly when the division raises, whatever the exception.  The final
    [divide], where its operands are numbers or its second one can be
    rendered, returns 0 where the first returns [None], and the same float
    everywhere else; on the other operands the first returns [None] and the
    final one raises. *)
Theorem anti_pattern_divide_hides_failures (py : interpreter) (a b : value) (w : world) :
  exists r,
    AntiPattern.divide a b w = (Ok r, w)
    /\ is_None r = is_Raise (truediv a b)
    /\ if divisor_can_be_named py (Divide a b)
       then fst (divide py a b w) = Ok (if is_None r then VInt 0 else r)
       else is_None r = true /\ is_Raise (fst (divide py a b w)) = true.
Proof.
  unfold AntiPattern.divide, try_except, select_clause, bind, lift, ret.
  destruct (truediv a b) as [q | e] eqn:Hq.
  - exists (VFloat q). split; [reflexivity |]. split; [reflexivity |].
    destruct (divisor_can_be_named py (Divide a b)) eqn:Hnamed.
    + rewrite (divide_on_success _ _ _ _ _ Hq). reflexivity.
    + unfold divisor_can_be_named in Hnamed. apply orb_false_iff in Hnamed as [Hnum _].
      rewrite (truediv_not_numbers a b Hnum) in Hq. discriminate Hq.
  - exists VNone. cbn [find fst].
    assert (Hbase : issubclass (exn_cls e) BaseException = true).
    { destruct (truediv_raises a b e Hq) as [-> | [-> | ->]]; reflexivity. }
    rewrite Hbase. split; [reflexivity |]. split; [reflexivity |].
    destruct (divisor_can_be_named py (Divide a b)) eqn:Hnamed.
    + destruct (divide_failure_by_class py a b e w Hq) as (m & k & Hrun & _).
      { apply raised_by_division_is_caught, (truediv_raises a b), Hq. }
      { apply named_divisor_writes; assumption. }
      rewrite Hrun. reflexivity.
    + destruct (divide_unnamed_divisor py a b w Hnamed) as (e' & _ & Hrun).
      rewrite Hrun. split; reflexivity.
Qed.

(** X6. The first rewrite of [divide] behaves as the final one while the
    division succeeds or raises [ZeroDivisionError] or [TypeError]: same
    value, same line; and when the [TypeError] clause cannot render the
    second operand, both are left by the exception of the rendering and
    print nothing.  When the division raises anything else the first
    rewrite prints nothing and is left by an [AttributeError], raised by
    its own last clause. *)
Theorem first_rewrite_divide (py : interpreter) (a b : value) (w : world) :
  match truediv a b with
  | Ok q =>
      FirstRewrite.divide py a b w
      = (Ok (FirstRewrite.Returns (VFloat q)), printed w [msg_no_errors])
      /\ divide py a b w = (Ok (VFloat q), printed w [msg_no_errors])
  | Raise e =>
      if issubclass (exn_cls e) ZeroDivisionError
      then FirstRewrite.divide py a b w
           = (Ok (FirstRewrite.Returns (VInt 0)), printed w [msg_division_by_zero])
           /\ divide py a b w = (Ok (VInt 0), printed w [msg_division_by_zero])
      else if issubclass (exn_cls e) TypeError
      then match format_field py b with
           | Ok _ =>
               FirstRewrite.divide py a b w
               = (Ok (FirstRewrite.Returns (VInt 0)), printed w [msg_division_by b])
               /\ divide py a b w = (Ok (VInt 0), printed w [msg_division_by b])
           | Raise e' =>
               FirstRewrite.divide py a b w = (Raise e', w)
               /\ divide py a b w = (Raise e', w)
           end
      else FirstRewrite.divide py a b w = (Ok (FirstRewrite.AttributeError e), w)
           /\ exn_cls e = OverflowError
  end.
Proof.
  destruct (truediv a b) as [q | e] eqn:Hq.
  - split; [| apply divide_on_success, Hq].
    unfold FirstRewrite.divide, finally_rebind, try_except, bind, lift, ret.
    rewrite Hq. reflexivity.
  - rewrite (divide_on_failure _ _ _ _ _ Hq).
    unfold FirstRewrite.divide, finally_rebind, try_except, bind, lift, ret.
    rewrite Hq.
    destruct (truediv_raises a b e Hq) as [Hc | [Hc | Hc]];
      destruct e as [c t]; cbn [exn_cls] in Hc; subst c; cbn.
    + split; reflexivity.
    + split; reflexivity.
    + unfold bind, lift. destruct (format_field py b) as [[] | e']; split; reflexivity.
Qed.

Example first_rewrite_divide_overflow :
  FirstRewrite.divide notebook_kernel (VInt (10 ^ 400)) (VInt 1) empty_world
  = (Ok (FirstRewrite.AttributeError quotient_too_large), empty_world).
Proof. vm_compute. reflexivity. Qed.

(** ** [read_json_file], path by path *)

Lemma logged_nothing (w : world) : logged w [] = w.
Proof. destruct w. unfold logged; cbn. rewrite app_nil_r. reflexivity. Qed.

(** A call with a string changes the world by at most one logged line, and
    both the result and the line depend on the files only. *)
Lemma read_json_file_outcome (json_load : string -> result value) (p : string)
    (fs : tree) :
  exists r lines,
    (lines = [] \/ exists m, lines = [m])
    /\ forall w, files w = fs ->
         read_json_file json_load (VStr p) w = (r, logged w lines).
Proof.
  assert (Hgen : forall w, files w = fs ->
    read_json_file json_load (VStr p) w =
      match read_outcome json_load p fs with
      | Ok v => (Ok v, w)
      | Raise e =>
          match select_clause (read_clauses (path_of_string p) (VDict [])) e with
          | Some c =>
              match snd c e w with
              | (Ok r, w') => (Ok r, w')
              | (Raise e', w') => (Raise e', w')
              end
          | None => (Raise e, w)
          end
      end).
  { intros w <-. apply read_json_file_run. }
  destruct (read_outcome json_load p fs) as [v | [c t]].
  - exists (Ok v), []. split; [left; reflexivity |].
    intros w Hw. rewrite logged_nothing. apply Hgen, Hw.
  - destruct c;
      try (eexists (Ok (VDict [])), [_]; split; [right; eexists; reflexivity |];
           intros w Hw; rewrite (Hgen w Hw); reflexivity);
      (eexists (Raise _), []; split; [left; reflexivity |];
       intros w Hw; rewrite logged_nothing, (Hgen w Hw); reflexivity).
Qed.

(** X7. A readable file whose content decodes: [read_json_file] returns
    the decoded value, a mapping included, exactly as the decoder gave it;
    nothing is logged and the world is as before. *)
Theorem read_valid_document (json_load : string -> result value)
    (p content : string) (v : value) (w : world) :
  is_path p = true ->
  files w !! p = Some (Regular true content) ->
  json_load content = Ok v ->
  read_json_file json_load (VStr p) w = (Ok v, w).
Proof.
  intros Hp Hfile Hdecode. rewrite read_json_file_run. unfold read_outcome.
  rewrite (open_named _ _ _ Hp Hfile), Hdecode. reflexivity.
Qed.

Lemma read_valid_document_witness :
  is_path "conf.json" = true
  /\ files (World (<["conf.json" := Regular true "{}"]> ∅) ∅ [] []) !! "conf.json"
     = Some (Regular true "{}")
  /\ sample_json_load "{}" = Ok (VDict [])
  /\ read_json_file sample_json_load (VStr "conf.json")
       (World (<["conf.json" := Regular true "{}"]> ∅) ∅ [] [])
     = (Ok (VDict []), World (<["conf.json" := Regular true "{}"]> ∅) ∅ [] []).
Proof.
  split; [reflexivity |]. split; [vm_compute; reflexivity |]. split; [reflexivity |].
  apply (read_valid_document sample_json_load "conf.json" "{}" (VDict [])
           (World (<["conf.json" := Regular true "{}"]> ∅) ∅ [] []));
    vm_compute; reflexivity.
Defined.

(** X8. A file that may not be read: the empty mapping, and one logged line,
    the one of the [PermissionError] clause; the decoder is not asked. *)
Theorem read_unreadable_file (json_load : string -> result value)
    (p content : string) (w : world) :
  is_path p = true ->
  files w !! p = Some (Regular false content) ->
  read_json_file json_load (VStr p) w
  = (Ok (VDict []), logged w [msg_permission_denied (path_of_string p)])
  /\ category_of (msg_permission_denied (path_of_string p)) = Some PermissionDenied.
Proof.
  intros Hp Hfile. split; [| reflexivity].
  rewrite read_json_file_run. unfold read_outcome.
  rewrite (open_named _ _ _ Hp Hfile). reflexivity.
Qed.

Lemma read_unreadable_file_witness :
  is_path "secret.json" = true
  /\ files sample_world !! "secret.json" = Some (Regular false "{}")
  /\ read_json_file sample_json_load (VStr "secret.json") sample_world
     = (Ok (VDict []),
        logged sample_world [msg_permission_denied (path_of_string "secret.json")]).
Proof.
  split; [reflexivity |]. split; [vm_compute; reflexivity |].
  apply (read_unreadable_file sample_json_load "secret.json" "{}" sample_world);
    vm_compute; reflexivity.
Defined.

(** X9. A path that names a directory the process may read: the empty
    mapping, and one logged line, the one of the [IsADirectoryError]
    clause. *)
Theorem read_directory (json_load : string -> result value) (p : string)
    (searchable : bool) (entries : list (string * node)) (w : world) :
  is_path p = true ->
  files w !! p = Some (Directory true searchable entries) ->
  read_json_file json_load (VStr p) w
  = (Ok (VDict []), logged w [msg_is_a_directory (path_of_string p)])
  /\ category_of (msg_is_a_directory (path_of_string p)) = Some PathIsNotAFile.
Proof.
  intros Hp Hfile. split; [| reflexivity].
  rewrite read_json_file_run. unfold read_outcome.
  rewrite (open_named _ _ _ Hp Hfile). reflexivity.
Qed.

Lemma read_directory_witness :
  is_path "data" = true
  /\ files sample_world !! "data" = Some (Directory true true [])
  /\ read_json_file sample_json_load (VStr "data") sample_world
     = (Ok (VDict []), logged sample_world [msg_is_a_directory (path_of_string "data")]).
Proof.
  split; [reflexivity |]. split; [vm_compute; reflexivity |].
  apply (read_directory sample_json_load "data" true [] sample_world);
    vm_compute; reflexivity.
Defined.

(** X10. A string with a NUL in it: no file is looked for; the [ValueError]
    of [open] falls to the catch-all clause, so the line logged is the one
    of the unexpected error, not [File not found]. *)
Theorem read_path_with_nul (json_load : string -> result value) (p : string) (w : world) :
  has_nul p = true ->
  read_json_file json_load (VStr p) w
  = (Ok (VDict []),
     logged w [msg_unexpected_error (path_of_string p)
                 (mk_exn ValueError "embedded null byte")])
  /\ category_of (msg_unexpected_error (path_of_string p)
                    (mk_exn ValueError "embedded null byte"))
     = Some UnexpectedError.
Proof.
  intros Hp. split; [| reflexivity].
  rewrite read_json_file_run. unfold read_outcome, open_outcome.
  rewrite nul_in_parts, Hp. reflexivity.
Qed.

Lemma read_path_with_nul_witness :
  has_nul (String (ascii_of_nat 0) "a.json") = true
  /\ read_json_file sample_json_load (VStr (String (ascii_of_nat 0) "a.json")) sample_world
     = (Ok (VDict []),
        logged sample_world
          [msg_unexpected_error (path_of_string (String (ascii_of_nat 0) "a.json"))
             (mk_exn ValueError "embedded null byte")]).
Proof.
  split; [reflexivity |].
  apply (read_path_with_nul sample_json_load (String (ascii_of_nat 0) "a.json") sample_world).
  reflexivity.
Defined.

(** X11. A readable file the decoder rejects.  A [JSONDecodeError] gives
    the line of the invalid JSON, with the text of the error; a
    [UnicodeDecodeError] gives the line of the encoding; both are kinds of
    [ValueError], and any other [ValueError] falls to the catch-all clause.
    In each case the empty mapping is returned and the file is closed. *)
Theorem read_undecodable_file (json_load : string -> result value)
    (p content : string) (e : exn) (w : world) :
  is_path p = true ->
  files w !! p = Some (Regular true content) ->
  json_load content = Raise e ->
  issubclass (exn_cls e) ValueError = true ->
  read_json_file json_load (VStr p) w
  = (Ok (VDict []),
     logged w [ if issubclass (exn_cls e) JSONDecodeError
                then msg_invalid_json (path_of_string p) e
                else if issubclass (exn_cls e) UnicodeDecodeError
                then msg_encoding_error (path_of_string p)
                else msg_unexpected_error (path_of_string p) e ]).
Proof.
  intros Hp Hfile Hdecode Hc. rewrite read_json_file_run. unfold read_outcome.
  rewrite (open_named _ _ _ Hp Hfile), Hdecode.
  by_exception_class e Hc; reflexivity.
Qed.

Lemma read_undecodable_file_witness :
  is_path "bad.json" = true
  /\ files (World (<["bad.json" := Regular true "{oops"]> ∅) ∅ [] []) !! "bad.json"
     = Some (Regular true "{oops")
  /\ sample_json_load "{oops" = Raise (mk_exn JSONDecodeError "Expecting value")
  /\ issubclass JSONDecodeError ValueError = true
  /\ read_json_file sample_json_load (VStr "bad.json")
       (World (<["bad.json" := Regular true "{oops"]> ∅) ∅ [] [])
     = (Ok (VDict []),
        logged (World (<["bad.json" := Regular true "{oops"]> ∅) ∅ [] [])
          [msg_invalid_json (path_of_string "bad.json")
             (mk_exn JSONDecodeError "Expecting value")]).
Proof.
  split; [reflexivity |]. split; [vm_compute; reflexivity |].
  split; [reflexivity |]. split; [reflexivity |].
  apply (read_undecodable_file sample_json_load "bad.json" "{oops"
           (mk_exn JSONDecodeError "Expecting value")
           (World (<["bad.json" := Regular true "{oops"]> ∅) ∅ [] []));
    vm_compute; reflexivity.
Defined.

(** X12. An exception of the decoder that does not derive from [Exception],
    such as [KeyboardInterrupt], is not swallowed: it reaches the caller,
    nothing is logged, and the file is closed all the same. *)
Theorem read_lets_non_exception_through (json_load : string -> result value)
    (p content : string) (e : exn) (w : world) :
  is_path p = true ->
  files w !! p = Some (Regular true content) ->
  json_load content = Raise e ->
  issubclass (exn_cls e) Exception = false ->
  read_json_file json_load (VStr p) w = (Raise e, w).
Proof.
  intros Hp Hfile Hdecode Hc. rewrite read_json_file_run. unfold read_outcome.
  rewrite (open_named _ _ _ Hp Hfile), Hdecode.
  destruct e as [c t]. cbn [exn_cls] in Hc.
  destruct c; try discriminate Hc; reflexivity.
Qed.

Lemma read_lets_non_exception_through_witness :
  is_path "list.json" = true
  /\ files sample_world !! "list.json" = Some (Regular true "[]")
  /\ (fun _ : string => @Raise value (mk_exn KeyboardInterrupt "")) "[]"
     = Raise (mk_exn KeyboardInterrupt "")
  /\ issubclass KeyboardInterrupt Exception = false
  /\ read_json_file (fun _ => Raise (mk_exn KeyboardInterrupt ""))
       (VStr "list.json") sample_world
     = (Raise (mk_exn KeyboardInterrupt ""), sample_world).
Proof.
  split; [reflexivity |]. split; [vm_compute; reflexivity |].
  split; [reflexivity |]. split; [reflexivity |].
  apply (read_lets_non_exception_through (fun _ => Raise (mk_exn KeyboardInterrupt ""))
           "list.json" "[]" (mk_exn KeyboardInterrupt "") sample_world);
    vm_compute; reflexivity.
Defined.

(** X13. [read_json_file] writes nothing but its log: on every argument,
    for every decoder, the files, the console and the open handles after
    the call are those before it, and the log has grown by one line at
    most. *)
Theorem read_json_file_only_logs (json_load : string -> result value)
    (file_path : value) (w : world) :
  exists lines,
    snd (read_json_file json_load file_path w) = logged w lines
    /\ (lines = [] \/ exists m, lines = [m]).
Proof.
  destruct file_path as [| | | | p | | |];
    try (exists []; split; [cbn; symmetry; apply logged_nothing | left; reflexivity]).
  destruct (read_json_file_outcome json_load p (files w)) as (r & lines & Hlines & Hrun).
  exists lines. rewrite (Hrun w eq_refl). split; [reflexivity | exact Hlines].
Qed.

(** X14. Calling [read_json_file] again with the same path gives the same
    result and logs the same line once more: the outcome depends on the
    files only, which a call does not change. *)
Theorem read_json_file_twice (json_load : string -> result value) (p : string) (w : world) :
  let first := read_json_file json_load (VStr p) w in
  let second := read_json_file json_load (VStr p) (snd first) in
  fst second = fst first
  /\ new_messages (snd first) (snd second) = new_messages w (snd first).
Proof.
  destruct (read_json_file_outcome json_load p (files w)) as (r & lines & _ & Hrun).
  cbn zeta. rewrite (Hrun w eq_refl). cbn [fst snd].
  rewrite (Hrun (logged w lines) eq_refl). cbn [fst snd].
  split; [reflexivity |]. rewrite !new_messages_logged. reflexivity.
Qed.

(** X26. A path that names a directory the process may not read: the
    system refuses to open it before anything tells a directory from a
    file, so the line logged is the one of the [PermissionError] clause,
    not the one of the directory. *)
Theorem read_unreadable_directory (json_load : string -> result value) (p : string)
    (searchable : bool) (entries : list (string * node)) (w : world) :
  is_path p = true ->
  files w !! p = Some (Directory false searchable entries) ->
  read_json_file json_load (VStr p) w
  = (Ok (VDict []), logged w [msg_permission_denied (path_of_string p)])
  /\ category_of (msg_permission_denied (path_of_string p)) = Some PermissionDenied.
Proof.
  intros Hp Hfile. split; [| reflexivity].
  rewrite read_json_file_run. unfold read_outcome.
  rewrite (open_named _ _ _ Hp Hfile). reflexivity.
Qed.

Lemma read_unreadable_directory_witness :
  is_path "locked" = true
  /\ files guarded_world !! "locked" = Some (Directory false true [])
  /\ read_json_file sample_json_load (VStr "locked") guarded_world
     = (Ok (VDict []),
        logged guarded_world [msg_permission_denied (path_of_string "locked")]).
Proof.
  split; [reflexivity |]. split; [vm_compute; reflexivity |].
  apply (read_unreadable_directory sample_json_load "locked" true [] guarded_world);
    vm_compute; reflexivity.
Defined.

(** X27. When the system refuses the path, the line logged goes by the
    error: a missing name gives [File not found], a directory on the way
    that may not be searched gives [Permission denied]; a file where a
    directory is needed and a name or a path that is too long have no
    clause of their own and give the line of the unexpected error. *)
Theorem read_by_errno (json_load : string -> result value) (p : string)
    (e : errno) (w : world) :
  is_path p = true ->
  locate (files w) (path_of_string p) = inl e ->
  read_json_file json_load (VStr p) w
  = (Ok (VDict []), logged w [line_of_errno (path_of_string p) e]).
Proof.
  unfold is_path. intros Hp Hlocate. apply negb_true_iff in Hp.
  rewrite read_json_file_run. unfold read_outcome, open_outcome.
  rewrite nul_in_parts, Hp, Hlocate. destruct e; reflexivity.
Qed.

Lemma read_by_errno_witness :
  is_path "closed/conf.json" = true
  /\ locate (files guarded_world) (path_of_string "closed/conf.json") = inl EACCES
  /\ read_json_file sample_json_load (VStr "closed/conf.json") guarded_world
     = (Ok (VDict []),
        logged guarded_world [msg_permission_denied (path_of_string "closed/conf.json")]).
Proof.
  split; [reflexivity |]. split; [vm_compute; reflexivity |].
  apply (read_by_errno sample_json_load "closed/conf.json" EACCES guarded_world);
    vm_compute; reflexivity.
Defined.


(** X29. The string is read as [pathlib] reads it: two strings that make
    the same path give the same call, result and line alike. *)
Theorem read_json_file_by_path (json_load : string -> result value)
    (p q : string) (w : world) :
  path_of_string p = path_of_string q ->
  read_json_file json_load (VStr p) w = read_json_file json_load (VStr q) w.
Proof.
  intros Hpq. rewrite !read_json_file_run. unfold read_outcome. rewrite Hpq. reflexivity.
Qed.

Lemma read_json_file_by_path_witness :
  path_of_string ".//list.json/" = path_of_string "list.json"
  /\ read_json_file sample_json_load (VStr ".//list.json/") sample_world
     = read_json_file sample_json_load (VStr "list.json") sample_world.
Proof.
  split; [vm_compute; reflexivity |].
  apply (read_json_file_by_path sample_json_load ".//list.json/" "list.json" sample_world).
  vm_compute; reflexivity.
Defined.


(** ** The two cells that read [file.txt] *)

(** X15. Without [with]: whenever [file.txt] opens, the cell ends in an
    exception and the handle it took is still open, one that was not open
    before; [close] is never reached.  When the text decodes, the
    exception is the [ZeroDivisionError] of [1 / 0]. *)
Theorem read_without_with_leaks (read_text : string -> result string)
    (content : string) (w : world) :
  files w !! "file.txt" = Some (Regular true content) ->
  exists e,
    read_without_with read_text w
    = (Raise e,
       World (files w) ({[fresh (handles w)]} ∪ handles w) (console w) (errlog w))
    /\ (fresh (handles w) ∉ handles w)
    /\ (forall text, read_text content = Ok text ->
                     e = mk_exn ZeroDivisionError "division by zero").
Proof.
  intros Hfile.
  unfold read_without_with, bind, open_read, read, lift.
  rewrite (open_named _ "file.txt" _ eq_refl Hfile). cbn [data].
  destruct (read_text content) as [text | e0].
  - eexists. split; [reflexivity |]. split; [apply is_fresh |].
    intros text' _. reflexivity.
  - exists e0. split; [reflexivity |]. split; [apply is_fresh | discriminate].
Qed.

Lemma read_without_with_leaks_witness :
  files notes_world !! "file.txt" = Some (Regular true "hello")
  /\ exists e,
       read_without_with Ok notes_world
       = (Raise e,
          World (files notes_world)
                ({[fresh (handles notes_world)]} ∪ handles notes_world)
                (console notes_world) (errlog notes_world))
       /\ (fresh (handles notes_world) ∉ handles notes_world)
       /\ (forall text, Ok "hello" = Ok text ->
                        e = mk_exn ZeroDivisionError "division by zero").
Proof.
  split; [vm_compute; reflexivity |].
  apply (read_without_with_leaks Ok "hello" notes_world).
  vm_compute; reflexivity.
Defined.

(** X16. With [with]: the cell always ends in an exception too, but the
    world, its open handles included, is exactly as before, whatever
    [file.txt] is and whatever its bytes are. *)
Theorem read_with_with_releases (read_text : string -> result string) (w : world) :
  exists e, read_with_with read_text w = (Raise e, w).
Proof.
  unfold read_with_with, with_open, bind, open_read, close, read, lift, ret.
  destruct (open_outcome (files w) (path_of_string "file.txt")) as [content | e0];
    [| eexists; reflexivity].
  cbn [data fd files handles console errlog].
  destruct (read_text content) as [text | e0]; cbn;
    rewrite fresh_handle_released; destruct w; eexists; reflexivity.
Qed.

(** ** [parse_color], string by string and tuple by tuple *)

(** Facts checked on every character, or on every pair of characters. *)
Lemma in_all_chars (a : ascii) : In a all_chars.
Proof.
  unfold all_chars. apply in_map_iff. exists (nat_of_ascii a).
  split; [apply ascii_nat_embedding |].
  apply in_seq. pose proof (nat_ascii_bounded a). lia.
Qed.

Lemma for_all_chars (P : ascii -> bool) :
  List.forallb P all_chars = true -> forall a, P a = true.
Proof. intros H a. eapply List.forallb_forall in H; [exact H | apply in_all_chars]. Qed.

Lemma lower_char_stable_all (a : ascii) : lower_char_stable a = true.
Proof. revert a. apply for_all_chars. vm_compute. reflexivity. Qed.

Lemma two_chars_in_range_all (a b : ascii) : two_chars_in_range a b = true.
Proof.
  revert b. apply for_all_chars. revert a.
  apply (for_all_chars (fun a => List.forallb (two_chars_in_range a) all_chars)).
  vm_compute. reflexivity.
Qed.

Lemma two_digits_read_all (a b : ascii) : two_digits_read a b = true.
Proof.
  revert b. apply for_all_chars. revert a.
  apply (for_all_chars (fun a => List.forallb (two_digits_read a) all_chars)).
  vm_compute. reflexivity.
Qed.

Lemma lower_char_facts (a : ascii) :
  lower_char (lower_char a) = lower_char a
  /\ Ascii.eqb (lower_char a) "#" = Ascii.eqb a "#"
  /\ Ascii.eqb (lower_char a) "-" = Ascii.eqb a "-"
  /\ (forall d, hex_digit a = Some d -> Ascii.eqb a "#" = false).
Proof.
  pose proof (lower_char_stable_all a) as H. unfold lower_char_stable in H.
  apply andb_true_iff in H as [H H4]. apply andb_true_iff in H as [H H3].
  apply andb_true_iff in H as [H1 H2].
  apply Ascii.eqb_eq in H1. apply Bool.eqb_prop in H2, H3.
  repeat split; try assumption.
  intros d Hd. rewrite Hd in H4. apply negb_true_iff in H4. exact H4.
Qed.

Lemma hex_pair_read (a b : ascii) (d1 d2 : Z) :
  hex_digit a = Some d1 -> hex_digit b = Some d2 ->
  int_base16 (String (lower_char a) (String (lower_char b) EmptyString))
  = Ok (16 * d1 + d2)%Z
  /\ channel_in_range (VInt (16 * d1 + d2)) = true.
Proof.
  intros Ha Hb. pose proof (two_digits_read_all a b) as H.
  unfold two_digits_read in H. rewrite Ha, Hb in H.
  destruct (int_base16 _) as [n | e]; [| discriminate].
  apply andb_true_iff in H as [H Hhi]. apply andb_true_iff in H as [Heq Hlo].
  apply Z.eqb_eq in Heq. subst n. split; [reflexivity |].
  unfold channel_in_range. rewrite Hlo, Hhi. reflexivity.
Qed.

Lemma unsigned_pair_in_range (a b : ascii) (n : Z) :
  Ascii.eqb a "-" = false ->
  int_base16 (String a (String b EmptyString)) = Ok n ->
  channel_in_range (VInt n) = true.
Proof.
  intros Ha Hn. pose proof (two_chars_in_range_all a b) as H.
  unfold two_chars_in_range in H. rewrite Hn, Ha, orb_false_r in H. exact H.
Qed.

(** No color name has six characters. *)
Lemma no_name_of_six (s : string) :
  String.length s = 6%nat -> COLOR_NAMES !! s = None.
Proof.
  intros Hlen. destruct (COLOR_NAMES !! s) as [rgb |] eqn:Hs; [| reflexivity].
  unfold COLOR_NAMES in Hs. apply elem_of_list_to_map_2 in Hs.
  repeat (apply elem_of_cons in Hs; destruct Hs as [[= -> ->] | Hs];
          [discriminate Hlen |]).
  apply elem_of_nil in Hs. contradiction.
Qed.

Lemma length_six (s : string) :
  String.length s = 6%nat ->
  exists a1 a2 a3 a4 a5 a6,
    s = String a1 (String a2 (String a3 (String a4 (String a5 (String a6 EmptyString))))).
Proof.
  intros H.
  do 6 (destruct s as [| ? s]; [discriminate H |]).
  destruct s; [| discriminate H]. do 6 eexists. reflexivity.
Qed.

(** Normalizing twice is normalizing once. *)
Lemma lower_lower (s : string) : lower (lower s) = lower s.
Proof.
  induction s as [| a s IH]; [reflexivity |]. cbn [lower].
  rewrite IH. f_equal. apply lower_char_facts.
Qed.

Lemma lstrip_lower (s : string) : lstrip "#" (lower s) = lower (lstrip "#" s).
Proof.
  induction s as [| a s IH]; [reflexivity |]. cbn [lower lstrip].
  destruct (lower_char_facts a) as (_ & Hhash & _). rewrite Hhash.
  destruct (Ascii.eqb a "#"); [exact IH | reflexivity].
Qed.

Lemma lstrip_lstrip (s : string) : lstrip "#" (lstrip "#" s) = lstrip "#" s.
Proof.
  induction s as [| a s IH]; [reflexivity |]. cbn [lstrip].
  destruct (Ascii.eqb a "#") eqn:Ha; [exact IH |]. cbn [lstrip]. rewrite Ha. reflexivity.
Qed.

Lemma normalized_normalized (s : string) : normalized (normalized s) = normalized s.
Proof.
  unfold normalized. rewrite lstrip_lower, lower_lower, lstrip_lstrip. reflexivity.
Qed.

Lemma parse_color_of_normalized (s t : string) (w : world) :
  normalized s = normalized t -> parse_color (VStr s) w = parse_color (VStr t) w.
Proof.
  intros H. unfold parse_color, parse_color_body. fold (normalized s) (normalized t).
  rewrite H. reflexivity.
Qed.

(** X17. [parse_color] reads a string through [s.lstrip('#').lower()] only:
    the normal form of a string gives the same color as the string, any
    number of [#] in front changes nothing, and neither does the case. *)
Theorem parse_color_normalizes (s : string) (w : world) :
  parse_color (VStr s) w = parse_color (VStr (normalized s)) w
  /\ parse_color (VStr (String "#" s)) w = parse_color (VStr s) w
  /\ parse_color (VStr (lower s)) w = parse_color (VStr s) w.
Proof.
  split; [| split]; apply parse_color_of_normalized.
  - symmetry. apply normalized_normalized.
  - reflexivity.
  - unfold normalized. rewrite lstrip_lower. apply lower_lower.
Qed.

(** X18. Six hexadecimal digits, capital or small, give the three channels
    [16 * d1 + d2], each within 0..255. *)
Theorem parse_color_hex_digits (c1 c2 c3 c4 c5 c6 : ascii) (d1 d2 d3 d4 d5 d6 : Z)
    (w : world) :
  hex_digit c1 = Some d1 -> hex_digit c2 = Some d2 -> hex_digit c3 = Some d3 ->
  hex_digit c4 = Some d4 -> hex_digit c5 = Some d5 -> hex_digit c6 = Some d6 ->
  parse_color
    (VStr (String c1 (String c2 (String c3 (String c4 (String c5 (String c6 "")))))))
    w
  = (Ok (mkRGB (VInt (16 * d1 + d2)) (VInt (16 * d3 + d4)) (VInt (16 * d5 + d6))), w)
  /\ rgb_in_range (mkRGB (VInt (16 * d1 + d2)) (VInt (16 * d3 + d4)) (VInt (16 * d5 + d6)))
     = true.
Proof.
  intros H1 H2 H3 H4 H5 H6.
  destruct (hex_pair_read c1 c2 d1 d2 H1 H2) as [Hr Hrr].
  destruct (hex_pair_read c3 c4 d3 d4 H3 H4) as [Hg Hgr].
  destruct (hex_pair_read c5 c6 d5 d6 H5 H6) as [Hb Hbr].
  split; [| unfold rgb_in_range; cbn [red green blue]; rewrite Hrr, Hgr, Hbr; reflexivity].
  rewrite parse_color_run. unfold parse_color_body. cbn [lstrip].
  destruct (lower_char_facts c1) as (_ & _ & _ & Hhash). rewrite (Hhash d1 H1).
  cbn [lower]. rewrite no_name_of_six by reflexivity.
  cbn [String.length Nat.eqb]. unfold hex_channel, slice, bind, lift, ret.
  cbn [substring Nat.sub]. rewrite Hr, Hg, Hb. reflexivity.
Qed.

Lemma parse_color_hex_digits_witness :
  hex_digit "F" = Some 15%Z /\ hex_digit "f" = Some 15%Z /\ hex_digit "8" = Some 8%Z
  /\ hex_digit "0" = Some 0%Z /\ hex_digit "a" = Some 10%Z /\ hex_digit "B" = Some 11%Z
  /\ parse_color (VStr "Ff80aB") empty_world
     = (Ok (mkRGB (VInt (16 * 15 + 15)) (VInt (16 * 8 + 0)) (VInt (16 * 10 + 11))),
        empty_world).
Proof.
  repeat (split; [reflexivity |]).
  apply (parse_color_hex_digits "F" "f" "8" "0" "a" "B" 15 15 8 0 10 11 empty_world);
    reflexivity.
Defined.

Lemma contains_lstrip (c d : ascii) (s : string) :
  contains c s = false -> contains c (lstrip d s) = false.
Proof.
  induction s as [| a s IH]; [reflexivity |]. cbn [contains lstrip].
  intros H. apply orb_false_iff in H as [Ha Hs].
  destruct (Ascii.eqb a d); [apply IH, Hs |]. cbn [contains]. rewrite Ha, Hs. reflexivity.
Qed.

Lemma contains_minus_lower (s : string) :
  contains "-" s = false -> contains "-" (lower s) = false.
Proof.
  induction s as [| a s IH]; [reflexivity |]. cbn [contains lower].
  intros H. apply orb_false_iff in H as [Ha Hs].
  destruct (lower_char_facts a) as (_ & _ & Hminus & _).
  rewrite Hminus, Ha, (IH Hs). reflexivity.
Qed.

(** What [parse_color] returns for a string: integers, and within range
    when the string has no minus sign. *)
Lemma parse_color_str_channels (s : string) (w : world) (rgb : RGB) :
  fst (parse_color (VStr s) w) = Ok rgb ->
  exists r g b,
    rgb = mkRGB (VInt r) (VInt g) (VInt b)
    /\ (contains "-" s = false -> rgb_in_range rgb = true).
Proof.
  rewrite parse_color_run.
  assert (Hblack : forall e, fst (if issubclass (exn_cls e) Exception
                                  then (Ok black, w) else (@Raise RGB e, w)) = Ok rgb ->
    exists r g b, rgb = mkRGB (VInt r) (VInt g) (VInt b)
                  /\ (contains "-" s = false -> rgb_in_range rgb = true)).
  { intros e. destruct (issubclass (exn_cls e) Exception); [| discriminate].
    intros [= <-]. do 3 eexists. split; reflexivity. }
  unfold parse_color_body. fold (normalized s).
  destruct (COLOR_NAMES !! normalized s) as [[[r g] b] |] eqn:Hname.
  - cbn. intros [= <-]. do 3 eexists. split; [reflexivity |].
    intros _. eapply color_names_in_range, Hname.
  - destruct (String.length (normalized s) =? 6)%nat eqn:Hlen;
      [| cbn [fst raise]; apply Hblack].
    apply Nat.eqb_eq in Hlen.
    destruct (length_six _ Hlen) as (a1 & a2 & a3 & a4 & a5 & a6 & Hs).
    assert (Hminus : contains "-" s = false -> contains "-" (normalized s) = false).
    { intros H. unfold normalized. apply contains_minus_lower, contains_lstrip, H. }
    rewrite Hs in Hminus |- *.
    unfold hex_channel, slice, bind, lift, ret. cbn [substring Nat.sub].
    destruct (int_base16 (String a1 (String a2 ""))) as [n1 | e1] eqn:H1;
      [| cbn [fst]; apply Hblack].
    destruct (int_base16 (String a3 (String a4 ""))) as [n2 | e2] eqn:H2;
      [| cbn [fst]; apply Hblack].
    destruct (int_base16 (String a5 (String a6 ""))) as [n3 | e3] eqn:H3;
      [| cbn [fst]; apply Hblack].
    cbn [fst]. intros [= <-]. do 3 eexists. split; [reflexivity |].
    intros Hno. specialize (Hminus Hno). cbn [contains] in Hminus.
    repeat (apply orb_false_iff in Hminus as [? Hminus]).
    unfold rgb_in_range. cbn [red green blue].
    rewrite (unsigned_pair_in_range a1 a2 n1), (unsigned_pair_in_range a3 a4 n2),
      (unsigned_pair_in_range a5 a6 n3) by assumption.
    reflexivity.
Qed.

(** X19. A string without a minus sign never gives a channel outside
    0..255: names, hexadecimal strings with blanks or a plus sign, and the
    strings that fall back to black are all in range. *)
Theorem parse_color_in_range_without_minus (s : string) (w : world) (rgb : RGB) :
  contains "-" s = false ->
  fst (parse_color (VStr s) w) = Ok rgb ->
  rgb_in_range rgb = true.
Proof.
  intros Hno Hrun.
  destruct (parse_color_str_channels s w rgb Hrun) as (r & g & b & _ & H).
  apply H, Hno.
Qed.

Lemma parse_color_in_range_without_minus_witness :
  contains "-" "#+f 7F0" = false
  /\ fst (parse_color (VStr "#+f 7F0") empty_world)
     = Ok (mkRGB (VInt 15) (VInt 7) (VInt 240))
  /\ rgb_in_range (mkRGB (VInt 15) (VInt 7) (VInt 240)) = true.
Proof.
  split; [reflexivity |]. split; [vm_compute; reflexivity |].
  apply (parse_color_in_range_without_minus "#+f 7F0" empty_world
           (mkRGB (VInt 15) (VInt 7) (VInt 240)));
    vm_compute; reflexivity.
Defined.

(** X20. A string whose normal form is no color name and has not six
    characters gives black; the short form [#fff] is such a string. *)
Theorem parse_color_other_length (s : string) (w : world) :
  COLOR_NAMES !! normalized s = None ->
  String.length (normalized s) <> 6%nat ->
  parse_color (VStr s) w = (Ok black, w).
Proof.
  intros Hname Hlen. rewrite parse_color_run.
  unfold parse_color_body. fold (normalized s). rewrite Hname.
  apply Nat.eqb_neq in Hlen. rewrite Hlen. reflexivity.
Qed.

Lemma parse_color_other_length_witness :
  COLOR_NAMES !! normalized "#fff" = None
  /\ String.length (normalized "#fff") <> 6%nat
  /\ parse_color (VStr "#fff") empty_world = (Ok black, empty_world).
Proof.
  split; [vm_compute; reflexivity |]. split; [vm_compute; discriminate |].
  apply (parse_color_other_length "#fff" empty_world);
    [vm_compute; reflexivity | vm_compute; discriminate].
Defined.

(** Every number is clamped, none is refused. *)
Lemma clamp_number (c : value) :
  is_number c = true -> exists x, clamp c = Ok x /\ channel_in_range x = true.
Proof.
  intros Hc. destruct (clamp c) as [x | e] eqn:Hx.
  - exists x. split; [reflexivity | eapply clamp_in_range, Hx].
  - exfalso. destruct c as [| b | n | f | | | |]; try discriminate Hc.
    + destruct b; discriminate Hx.
    + rewrite clamp_int in Hx. discriminate Hx.
    + revert Hx. unfold clamp, min_int, max_int, lt_int, gt_int, compare_int.
      destruct (float_compare_int f 255) as [[| |] |]; cbn;
        destruct (float_compare_int f 0) as [[| |] |]; cbn; discriminate.
Qed.

Lemma clamp_not_a_number (c : value) :
  is_number c = false -> exists e, clamp c = Raise e.
Proof. destruct c; try discriminate; intros _; eexists; reflexivity. Qed.

(** X21. A tuple of three numbers, integers, booleans or floats, is never
    refused: each channel is clamped by [max(0, min(255, c))], a NaN or an
    infinity included, and the color returned is within 0..255. *)
Theorem parse_color_three_numbers (c1 c2 c3 : value) (w : world) :
  is_number c1 = true -> is_number c2 = true -> is_number c3 = true ->
  exists r g b,
    clamp c1 = Ok r /\ clamp c2 = Ok g /\ clamp c3 = Ok b
    /\ parse_color (VTuple [c1; c2; c3]) w = (Ok (mkRGB r g b), w)
    /\ rgb_in_range (mkRGB r g b) = true.
Proof.
  intros H1 H2 H3.
  destruct (clamp_number c1 H1) as (r & Hr & Hrr).
  destruct (clamp_number c2 H2) as (g & Hg & Hgr).
  destruct (clamp_number c3 H3) as (b & Hb & Hbr).
  exists r, g, b. repeat (split; [assumption |]). split.
  - rewrite parse_color_run. unfold parse_color_body, bind, lift, ret.
    cbn [List.length Nat.eqb clamp_all]. rewrite Hr, Hg, Hb. reflexivity.
  - unfold rgb_in_range. cbn [red green blue]. rewrite Hrr, Hgr, Hbr. reflexivity.
Qed.

Lemma parse_color_three_numbers_witness :
  is_number (VFloat S754_nan) = true
  /\ is_number (VFloat (S754_infinity true)) = true
  /\ is_number (VBool true) = true
  /\ exists r g b,
       clamp (VFloat S754_nan) = Ok r
       /\ clamp (VFloat (S754_infinity true)) = Ok g
       /\ clamp (VBool true) = Ok b
       /\ parse_color (VTuple [VFloat S754_nan; VFloat (S754_infinity true); VBool true])
            empty_world
          = (Ok (mkRGB r g b), empty_world)
       /\ rgb_in_range (mkRGB r g b) = true.
Proof.
  repeat (split; [reflexivity |]).
  apply (parse_color_three_numbers (VFloat S754_nan) (VFloat (S754_infinity true))
           (VBool true) empty_world); reflexivity.
Defined.

Example parse_color_nan_channel :
  parse_color (VTuple [VFloat S754_nan; VFloat (S754_infinity true); VBool true]) empty_world
  = (Ok (mkRGB (VInt 255) (VInt 0) (VBool true)), empty_world).
Proof. vm_compute. reflexivity. Qed.

(** X22. What is neither a string nor a tuple of length three gives black:
    [None], a number, a list of three channels, a tuple of two or of four. *)
Theorem parse_color_other_objects (color : value) (w : world) :
  (forall text, color <> VStr text) ->
  (forall items, color = VTuple items -> List.length items <> 3%nat) ->
  parse_color color w = (Ok black, w).
Proof.
  intros Hstr Htuple. rewrite parse_color_run. unfold parse_color_body.
  destruct color as [| | | | text | items | |]; try reflexivity.
  - now contradiction (Hstr text).
  - specialize (Htuple items eq_refl). apply Nat.eqb_neq in Htuple.
    rewrite Htuple. reflexivity.
Qed.

Lemma parse_color_other_objects_witness :
  (forall text, VList [VInt 255; VInt 0; VInt 0] <> VStr text)
  /\ (forall items, VList [VInt 255; VInt 0; VInt 0] = VTuple items ->
                    List.length items <> 3%nat)
  /\ parse_color (VList [VInt 255; VInt 0; VInt 0]) empty_world = (Ok black, empty_world).
Proof.
  split; [intros text; discriminate |]. split; [intros items; discriminate |].
  apply (parse_color_other_objects (VList [VInt 255; VInt 0; VInt 0]) empty_world);
    intros ?; discriminate.
Defined.

Lemma clamp_all_refuses (items : list value) :
  Exists (fun c => is_number c = false) items ->
  exists e, clamp_all items = Raise e /\ exn_cls e = TypeError.
Proof.
  induction 1 as [c rest Hc | c rest _ IH]; cbn [clamp_all].
  - destruct (clamp_not_a_number c Hc) as [e He]. rewrite He.
    exists e. split; [reflexivity | eapply clamp_raises, He].
  - destruct (clamp c) as [x | e] eqn:Hx.
    + destruct IH as (e & -> & He). eauto.
    + exists e. split; [reflexivity | eapply clamp_raises, Hx].
Qed.

(** X23. A tuple of three with one channel that is not a number, a string
    of digits for one, is refused as a whole: the color is black, whatever
    the other channels are. *)
Theorem parse_color_refuses_tuple (items : list value) (w : world) :
  List.length items = 3%nat ->
  Exists (fun c => is_number c = false) items ->
  parse_color (VTuple items) w = (Ok black, w).
Proof.
  intros Hlen Hbad. rewrite parse_color_run.
  unfold parse_color_body, bind, lift.
  apply Nat.eqb_eq in Hlen. rewrite Hlen.
  destruct (clamp_all_refuses items Hbad) as (e & -> & He).
  cbn [fst]. rewrite He. reflexivity.
Qed.

Lemma parse_color_refuses_tuple_witness :
  List.length [VInt 255; VStr "128"; VInt 0] = 3%nat
  /\ Exists (fun c => is_number c = false) [VInt 255; VStr "128"; VInt 0]
  /\ parse_color (VTuple [VInt 255; VStr "128"; VInt 0]) empty_world
     = (Ok black, empty_world).
Proof.
  split; [reflexivity |].
  split; [apply Exists_cons_tl, Exists_cons_hd; reflexivity |].
  apply (parse_color_refuses_tuple [VInt 255; VStr "128"; VInt 0] empty_world);
    [reflexivity | apply Exists_cons_tl, Exists_cons_hd; reflexivity].
Defined.

Lemma clamp_int_in_range (n : Z) :
  channel_in_range (VInt n) = true -> clamp (VInt n) = Ok (VInt n).
Proof.
  intros H. rewrite clamp_int. unfold channel_in_range in H.
  apply andb_true_iff in H as [Hlo Hhi]. apply Z.leb_le in Hlo, Hhi.
  unfold clamp_channel. do 2 f_equal. lia.
Qed.

(** X24. The color returned for a string without a minus sign can be given
    back to [parse_color], an [RGB] being a tuple of three, and comes back
    unchanged. *)
Theorem parse_color_accepts_its_result (s : string) (w : world) (rgb : RGB) :
  contains "-" s = false ->
  fst (parse_color (VStr s) w) = Ok rgb ->
  parse_color (as_tuple rgb) w = (Ok rgb, w).
Proof.
  intros Hno Hrun.
  destruct (parse_color_str_channels s w rgb Hrun) as (r & g & b & -> & Hrange).
  specialize (Hrange Hno). unfold rgb_in_range in Hrange. cbn [red green blue] in Hrange.
  apply andb_true_iff in Hrange as [Hrange Hb].
  apply andb_true_iff in Hrange as [Hr Hg].
  rewrite parse_color_run. unfold as_tuple, parse_color_body, bind, lift, ret.
  cbn [red green blue List.length Nat.eqb clamp_all].
  rewrite (clamp_int_in_range r Hr), (clamp_int_in_range g Hg), (clamp_int_in_range b Hb).
  reflexivity.
Qed.

Lemma parse_color_accepts_its_result_witness :
  contains "-" "#FF8000" = false
  /\ fst (parse_color (VStr "#FF8000") empty_world)
     = Ok (mkRGB (VInt 255) (VInt 128) (VInt 0))
  /\ parse_color (as_tuple (mkRGB (VInt 255) (VInt 128) (VInt 0))) empty_world
     = (Ok (mkRGB (VInt 255) (VInt 128) (VInt 0)), empty_world).
Proof.
  split; [reflexivity |]. split; [vm_compute; reflexivity |].
  apply (parse_color_accepts_its_result "#FF8000" empty_world
           (mkRGB (VInt 255) (VInt 128) (VInt 0)));
    vm_compute; reflexivity.
Defined.
